(** * epcp-simulator: electricity-price driven CPU frequency scaling

    A shallow embedding of [src/main.go] and the properties its
    specification states about it.  The Go program is sequential and talks to
    three outside parties (the process environment and clock, the OTE SOAP
    service, the cpufreq files of sysfs); they are gathered in a [Host]
    record, and the program's functions are written in a small state and error
    monad over the mutable [World]. *)

From Stdlib Require Import ZArith String Ascii List Lia.
From Stdlib Require Import DecimalString DecimalPos DecimalZ SpecFloat.
From stdpp Require Import base option list gmap strings.

Local Open Scope Z_scope.

(** ** Go's [int] and [int64]: 64-bit two's complement *)

Definition int64_min : Z := - 2 ^ 63.
Definition int64_max : Z := 2 ^ 63 - 1.

Definition in_int64 (z : Z) : bool := (int64_min <=? z) && (z <=? int64_max).

(** The value an [int64] holds after an arithmetic result [z] is stored in it. *)
Definition wrap64 (z : Z) : Z := (z + 2 ^ 63) `mod` 2 ^ 64 - 2 ^ 63.

(** ** [strconv] *)

(** [strconv.Itoa], also what [fmt.Sprintf("%d", n)] prints. *)
Definition Itoa (n : Z) : string := NilEmpty.string_of_int (Z.to_int n).

(** [strconv.Atoi]: an optional sign, then one or more decimal digits, and the
    value has to fit an [int]; [None] stands for a non-nil [error]. *)
Definition Atoi (s : string) : option Z :=
  match s with
  | EmptyString => None
  | String c rest =>
      let '(neg, digits) :=
        if Ascii.eqb c "-" then (true, rest)
        else if Ascii.eqb c "+" then (false, rest)
        else (false, s) in
      match digits with
      | EmptyString => None
      | _ =>
          match NilEmpty.uint_of_string digits with
          | None => None
          | Some d =>
              let n := Z.of_uint d in
              let v := if neg then - n else n in
              if in_int64 v then Some v else None
          end
      end
  end.

(** ** [strings] *)

(** [strings.Split(s, sep)] for a separator of one byte: the pieces between
    the occurrences of [sep], empty pieces included. *)
Fixpoint Split (s : string) (sep : ascii) : list string :=
  match s with
  | EmptyString => [EmptyString]
  | String c r =>
      if Ascii.eqb c sep then EmptyString :: Split r sep
      else match Split r sep with
           | [] => [String c EmptyString]
           | piece :: pieces => String c piece :: pieces
           end
  end.

(** White space as [strings.TrimSpace] sees it on ASCII text. *)
Definition isSpace (c : ascii) : bool :=
  let n := nat_of_ascii c in
  ((9 <=? n) && (n <=? 13))%nat || (n =? 32)%nat.

Fixpoint TrimLeft (s : string) : string :=
  match s with
  | String c r => if isSpace c then TrimLeft r else s
  | EmptyString => EmptyString
  end.

Definition TrimSpace (s : string) : string :=
  String.rev (TrimLeft (String.rev (TrimLeft s))).

(** ** [fmt]: the verb [%0wd] *)

Fixpoint zeros (n : nat) : string :=
  match n with
  | O => EmptyString
  | S k => String "0" (zeros k)
  end.

(** [fmt.Sprintf("%0wd", n)]: the sign first, then zeros up to a total width
    of [w], then the digits. *)
Definition pad0 (w : nat) (n : Z) : string :=
  let digits := Itoa (Z.abs n) in
  let sign := if n <? 0 then "-" else "" in
  sign +:+ zeros (w - String.length sign - String.length digits) +:+ digits.

(** ** [time] *)

(** [time.Hour], a [Duration]: nanoseconds in an [int64]. *)
Definition Hour : Z := 3600000000000.

(** A time zone as [time.LoadLocation] returns it: the offset east of UTC, in
    seconds, in force at a Unix time in seconds. *)
Definition Location : Type := Z → Z.

(** A [time.Time] set in a location: the instant in nanoseconds since the Unix
    epoch, and the zone it is displayed in. *)
Record Time := { unixNano : Z; zone : Location }.

(** [t.Add(d)]. *)
Definition Add (t : Time) (d : Z) : Time :=
  {| unixNano := unixNano t + d; zone := zone t |}.

(** Seconds of local wall-clock time since 1970-01-01 00:00:00. *)
Definition localSeconds (t : Time) : Z :=
  let sec := unixNano t `div` 1000000000 in
  sec + zone t sec.

(** [t.Hour()]: the hour within the day, 0 to 23. *)
Definition HourOf (t : Time) : Z := (localSeconds t `mod` 86400) `div` 3600.

(** The proleptic Gregorian date of a day counted from 1970-01-01. *)
Definition civil (day : Z) : Z * Z * Z :=
  let z := day + 719468 in
  let era := z `div` 146097 in
  let doe := z - era * 146097 in
  let yoe := (doe - doe `div` 1460 + doe `div` 36524 - doe `div` 146096) `div` 365 in
  let doy := doe - (365 * yoe + yoe `div` 4 - yoe `div` 100) in
  let mp := (5 * doy + 2) `div` 153 in
  let d := doy - (153 * mp + 2) `div` 5 + 1 in
  let m := if mp <? 10 then mp + 3 else mp - 9 in
  let y := yoe + era * 400 + (if m <=? 2 then 1 else 0) in
  (y, m, d).

(** [t.Date()]: year, month and day of the local date. *)
Definition DateOf (t : Time) : Z * Z * Z := civil (localSeconds t `div` 86400).

(** [fmt.Sprintf("%04d-%02d-%02d", y, m, d)] on the result of [Date()]. *)
Definition formatDate (ymd : Z * Z * Z) : string :=
  let '(y, m, d) := ymd in
  pad0 4 y +:+ "-" +:+ pad0 2 m +:+ "-" +:+ pad0 2 d.

(** ** [float32] *)

(** IEEE 754 binary32 values, in the representation of the Standard Library's
    specification of floating-point numbers (precision 24, emax 128). *)
Definition float32 : Type := spec_float.

(** The [float32] nearest to [m * 2^e]. *)
Definition f32 (m e : Z) : float32 := binary_normalize 24 128 m e false.

(** Go's [<=] on [float32]: false as soon as one side is a NaN. *)
Definition f32le (x y : float32) : bool := SFleb x y.

(** ** The outside world *)

(** An HTTP request as [sendRequest] builds it: a POST to [reqURL] with the
    headers [Content-type] and [SOAPAction] and the envelope as body. *)
Record Request := {
  reqURL : string;
  reqContentType : string;
  reqSOAPAction : string;
  reqPayload : string
}.

(** The character data of a numeric element of a response: it coerces to a
    value of the Go field's type, or it does not. *)
Inductive XmlField (T : Type) : Type :=
| Coerces (v : T)
| Uncoercible (text : string).
Arguments Coerces {T} v.
Arguments Uncoercible {T} text.

(** An [<Item>] of a [GetImPriceEResponse] as it arrives. *)
Record RawItem := {
  rawDate : string;
  rawHour : XmlField Z;
  rawPrice : XmlField float32;
  rawVolume : XmlField float32
}.

(** A response body as [xml.Decoder] meets it: not an envelope of the expected
    shape at all, or an envelope with its items in document order. *)
Inductive XmlBody : Type :=
| NotAnEnvelope
| Envelope (items : list RawItem).

Record Response := { Status : string; Body : XmlBody }.

(** Everything the process is given and does not change. *)
Record Host := {
  (** [os.Getenv]: the empty string for an unset variable. *)
  Getenv : string → string;
  (** [time.ParseDuration]: nanoseconds, or [None] for an error. *)
  ParseDuration : string → option Z;
  (** [time.LoadLocation]. *)
  LoadLocation : string → option Location;
  (** [time.Now()], in nanoseconds since the Unix epoch. *)
  Now : Z;
  (** [runtime.NumCPU()]. *)
  NumCPU : Z;
  (** Whether [http.NewRequest] accepts the URL. *)
  NewRequest : string → bool;
  (** [http.Client.Do] on a request, given the requests sent before it:
      [None] for a transport error. *)
  Do : list Request → Request → option Response;
  (** Whether [os.ReadFile] can read an existing file. *)
  Readable : string → bool;
  (** Whether [os.WriteFile] of these bytes to this path succeeds. *)
  Writable : string → string → bool
}.

(** The lines the two loggers print, one constructor per call site. *)
Inductive Event : Type :=
| ErrCreatingRequest
| ErrDispatchingRequest
| ErrStatus (status : string)
| ErrUnmarshal
| InfoItem (date : string) (hour : Z) (price volume : float32)
| InfoFunctionCall
| ErrHTTPExiting
| InfoPreviousDayContinuing
| ErrThisDayExiting
| ErrTodayExiting
| InfoIncreasing
| InfoDecreasing
| InfoNotScaling (cpu freq : Z)
| InfoScaling (cpu freq : Z)
| ErrPathDoesNotExist (path : string)
| ErrFailedToOpen (path : string)
| ErrWriting (frequency path : string)
| InfoParsingHours (hours : string)
| FatalLocation.

(** The arguments of one call of [GetImPriceE]. *)
Record Fetch := {
  fetchStartDate : string;
  fetchEndDate : string;
  fetchStartHour : string;
  fetchEndHour : string
}.

(** What the process changes: its two package variables, the files, and the
    record of what it did (requests dispatched, intraday fetches started,
    writes attempted, lines logged), oldest first. *)
Record World := {
  hoursInThePast : Z;
  wsdlService : string;
  files : gmap string string;
  sent : list Request;
  fetched : list Fetch;
  written : list (string * string);
  logged : list Event
}.

Definition setHoursInThePast (d : Z) (w : World) : World :=
  {| hoursInThePast := d; wsdlService := wsdlService w; files := files w;
     sent := sent w; fetched := fetched w; written := written w; logged := logged w |}.

Definition setWsdlService (u : string) (w : World) : World :=
  {| hoursInThePast := hoursInThePast w; wsdlService := u; files := files w;
     sent := sent w; fetched := fetched w; written := written w; logged := logged w |}.

Definition setFiles (f : gmap string string) (w : World) : World :=
  {| hoursInThePast := hoursInThePast w; wsdlService := wsdlService w; files := f;
     sent := sent w; fetched := fetched w; written := written w; logged := logged w |}.

Definition addSent (r : Request) (w : World) : World :=
  {| hoursInThePast := hoursInThePast w; wsdlService := wsdlService w; files := files w;
     sent := sent w ++ [r]; fetched := fetched w; written := written w;
     logged := logged w |}.

Definition addFetched (f : Fetch) (w : World) : World :=
  {| hoursInThePast := hoursInThePast w; wsdlService := wsdlService w; files := files w;
     sent := sent w; fetched := fetched w ++ [f]; written := written w;
     logged := logged w |}.

Definition addWritten (p : string * string) (w : World) : World :=
  {| hoursInThePast := hoursInThePast w; wsdlService := wsdlService w; files := files w;
     sent := sent w; fetched := fetched w; written := written w ++ [p];
     logged := logged w |}.

Definition addLogged (e : Event) (w : World) : World :=
  {| hoursInThePast := hoursInThePast w; wsdlService := wsdlService w; files := files w;
     sent := sent w; fetched := fetched w; written := written w;
     logged := logged w ++ [e] |}.

(** ** The monad of the program: state, panics and [os.Exit] *)

Inductive Outcome (A : Type) : Type :=
| Returned (a : A)
| Panicked
| Exited (code : Z).
Arguments Returned {A} a.
Arguments Panicked {A}.
Arguments Exited {A} code.

Definition Run (A : Type) : Type := World → Outcome A * World.

Definition ret {A} (a : A) : Run A := λ w, (Returned a, w).

Definition bind {A B} (m : Run A) (k : A → Run B) : Run B :=
  λ w, match m w with
       | (Returned a, w') => k a w'
       | (Panicked, w') => (Panicked, w')
       | (Exited c, w') => (Exited c, w')
       end.

Notation "x <- m ;; k" := (bind m (λ x, k))
  (at level 100, m at next level, right associativity).
Notation "m ;;; k" := (bind m (λ _, k))
  (at level 100, right associativity).

Definition panic {A} : Run A := λ w, (Panicked, w).
Definition exit {A} (code : Z) : Run A := λ w, (Exited code, w).
Definition gets {A} (f : World → A) : Run A := λ w, (Returned (f w), w).
Definition modify (f : World → World) : Run unit := λ w, (Returned tt, f w).
Definition logEvent (e : Event) : Run unit := modify (addLogged e).

(** [for _, x := range l { s = body(x, s) }]. *)
Fixpoint forEach {A S} (l : list A) (body : A → S → Run S) (s : S) : Run S :=
  match l with
  | [] => ret s
  | x :: rest => s' <- body x s;; forEach rest body s'
  end.

(** [for i := 0; i < n; i++ { s = body(i, s) }], for a body that leaves [i]
    alone. *)
Definition forUpTo {S} (n : Z) (body : Z → S → Run S) (s : S) : Run S :=
  forEach (seqZ 0 n) body s.

(** [l[i]] on a slice: a panic outside [0 <= i < len(l)]. *)
Definition index {A} (l : list A) (i : Z) : Run A :=
  if i <? 0 then panic
  else match l !! Z.to_nat i with
       | Some x => ret x
       | None => panic
       end.

(** ** The program *)

Definition quote : string := String "034"%char EmptyString.
Definition nl : string := String "010"%char EmptyString.
Definition tab : string := String "009"%char EmptyString.

(** The envelope of [GetImPriceE] as [fmt.Sprintf] fills it, before trimming. *)
Definition imPriceEnvelope (startDate endDate startHour endHour : string) : string :=
  nl +:+
  tab +:+ "<?xml version=" +:+ quote +:+ "1.0" +:+ quote +:+
         " encoding=" +:+ quote +:+ "UTF-8" +:+ quote +:+ " ?>" +:+ nl +:+
  "    <soapenv:Envelope" +:+ nl +:+
  "       xmlns:soapenv=" +:+ quote +:+ "http://schemas.xmlsoap.org/soap/envelope/" +:+ quote +:+ nl +:+
  "       xmlns:pub=" +:+ quote +:+ "http://www.ote-cr.cz/schema/service/public" +:+ quote +:+ ">" +:+ nl +:+
  tab +:+ tab +:+ "<soapenv:Header/>" +:+ nl +:+
  "        <soapenv:Body>" +:+ nl +:+
  "            <pub:GetImPriceE>" +:+ nl +:+
  tab +:+ tab +:+ tab +:+ tab +:+ "<pub:StartDate>" +:+ startDate +:+ "</pub:StartDate>" +:+ nl +:+
  tab +:+ tab +:+ tab +:+ tab +:+ "<pub:EndDate>" +:+ endDate +:+ "</pub:EndDate>" +:+ nl +:+
  tab +:+ tab +:+ tab +:+ tab +:+ "<pub:StartHour>" +:+ startHour +:+ "</pub:StartHour>" +:+ nl +:+
  tab +:+ tab +:+ tab +:+ tab +:+ "<pub:EndHour>" +:+ endHour +:+ "</pub:EndHour>" +:+ nl +:+
  "            </pub:GetImPriceE>" +:+ nl +:+
  "        </soapenv:Body>" +:+ nl +:+
  "    </soapenv:Envelope>".

(** [fmt.Sprintf("/sys/devices/system/cpu/cpu%d/cpufreq/scaling_max_freq", i)]. *)
Definition scalingMaxFreqFile (i : Z) : string :=
  "/sys/devices/system/cpu/cpu" +:+ Itoa i +:+ "/cpufreq/scaling_max_freq".

Definition scalingAvailableFrequenciesFile : string :=
  "/sys/devices/system/cpu/cpu0/cpufreq/scaling_available_frequencies".

Record Times := {
  startDate : string;
  endDate : string;
  startHour : string;
  endHour : string
}.

(** A decoded [<Item>] of [ElectricityIntraDayTrade]. *)
Record Item := {
  itemDate : string;
  itemHour : Z;
  itemPrice : float32;
  itemVolume : float32
}.

(** One item through [encoding/xml]: the fields in turn, an error ([None]) at
    the first one that does not coerce. *)
Definition decodeItem (r : RawItem) : option Item :=
  match rawHour r, rawPrice r, rawVolume r with
  | Coerces h, Coerces p, Coerces v =>
      Some {| itemDate := rawDate r; itemHour := h; itemPrice := p; itemVolume := v |}
  | _, _, _ => None
  end.

(** The items in document order: what the decoder had stored in the result
    when it stopped, and whether it stopped on an error. *)
Fixpoint decodeItems (rs : list RawItem) : list Item * bool :=
  match rs with
  | [] => ([], false)
  | r :: rest =>
      match decodeItem r with
      | None => ([], true)
      | Some it => let '(its, err) := decodeItems rest in (it :: its, err)
      end
  end.

(** [xml.NewDecoder(res.Body).Decode(result)] for a [result] of type
    [*ElectricityIntraDayTrade]: the items left in [result], and the error. *)
Definition Decode (b : XmlBody) : list Item * bool :=
  match b with
  | NotAnEnvelope => ([], true)
  | Envelope rs => decodeItems rs
  end.

(** The (min, max) pair of [scaleCPUFrequency] after one more entry of the
    capability file (the body of the loop of lines 329 to 338). *)
Definition narrow (r : Z * Z) (frequency : string) : Z * Z :=
  let '(minF, maxF) := r in
  match Atoi frequency with
  | Some f =>
      let maxF := if maxF <? f then f else maxF in
      let minF := if f <? minF then f else minF in
      (minF, maxF)
  | None => (minF, maxF)
  end.

(** Lines 328 to 338 of [scaleCPUFrequency]: [minF, maxF := 10000000, 0] and
    the loop over the entries. *)
Definition frequencyRange (frequencies : list string) : Z * Z :=
  fold_left narrow frequencies (10000000, 0).

(** The body of the loop of lines 319 to 325 of [scaleCPUFrequency], on the
    counters [(dec, inc)]. *)
Definition trendStep (prices : list float32) (i : Z) (c : Z * Z) : Run (Z * Z) :=
  let '(dec, inc) := c in
  later <- index prices (i + 1);;
  earlier <- index prices i;;
  if f32le later earlier then ret (dec + 1, inc) else ret (dec, inc + 1).

(** Lines 318 to 325 of [scaleCPUFrequency]: [dec, inc := 0, 0] and the loop
    [for i := 0; i < len(prices)-1; i++]. *)
Definition countTrend (prices : list float32) : Run (Z * Z) :=
  forUpTo (Z.of_nat (length prices) - 1) (trendStep prices) (0, 0).

Section Program.

Context (host : Host).

Definition sendRequest (soapAction payload : string) : Run (option Response) :=
  url <- gets wsdlService;;
  if negb (NewRequest host url) then
    logEvent ErrCreatingRequest;;; ret None
  else
    let req := {| reqURL := url; reqContentType := "text/xml";
                  reqSOAPAction := soapAction; reqPayload := payload |} in
    before <- gets sent;;
    modify (addSent req);;;
    match Do host before req with
    | None => logEvent ErrDispatchingRequest;;; ret None
    | Some res =>
        if negb (String.eqb (Status res) "200 OK") then
          logEvent (ErrStatus (Status res));;; ret None
        else ret (Some res)
    end.

Definition extractPricesFromGetImPriceE (res : Response) : Run (list float32 * bool) :=
  let '(hourlyRate, err) := Decode (Body res) in
  if err then
    logEvent ErrUnmarshal;;; ret ([], true)
  else
    prices <- forEach hourlyRate
      (λ s prices,
         logEvent (InfoItem (itemDate s) (itemHour s) (itemPrice s) (itemVolume s));;;
         ret (prices ++ [itemPrice s]))
      [];;
    ret (prices, false).

Definition GetImPriceE (startDate endDate startHour endHour : string)
  : Run (option Response) :=
  modify (addFetched {| fetchStartDate := startDate; fetchEndDate := endDate;
                        fetchStartHour := startHour; fetchEndHour := endHour |});;;
  let payload := TrimSpace (imPriceEnvelope startDate endDate startHour endHour) in
  httpResponse <- sendRequest "urn:GetImPriceE" payload;;
  match httpResponse with
  | None => ret None
  | Some res => ret (Some res)
  end.

Definition getTimeRange : Run Times :=
  match LoadLocation host "Europe/Budapest" with
  | None => logEvent FatalLocation;;; exit 1
  | Some loc =>
      let now := {| unixNano := Now host; zone := loc |} in
      offset <- gets hoursInThePast;;
      let before := Add now (wrap64 (offset * Hour)) in
      ret {| startHour := Itoa (HourOf before);
             endHour := Itoa (HourOf now);
             startDate := formatDate (DateOf before);
             endDate := formatDate (DateOf now) |}
  end.

Definition getElectrictyPrices (times : Times) : Run (list float32) :=
  logEvent InfoFunctionCall;;;
  if negb (String.eqb (startDate times) (endDate times)) then
    htr <- GetImPriceE (startDate times) (startDate times) (startHour times) "24";;
    match htr with
    | None => logEvent ErrHTTPExiting;;; ret []
    | Some res1 =>
        r1 <- extractPricesFromGetImPriceE res1;;
        let '(prices1, err1) := r1 in
        (if err1 then logEvent InfoPreviousDayContinuing else ret tt);;;
        htr <- GetImPriceE (endDate times) (endDate times) "0" (endHour times);;
        match htr with
        | None => logEvent ErrHTTPExiting;;; ret []
        | Some res2 =>
            r2 <- extractPricesFromGetImPriceE res2;;
            let '(prices2, err2) := r2 in
            if err2 then logEvent ErrThisDayExiting;;; ret []
            else ret (prices1 ++ prices2)
        end
    end
  else
    htr <- GetImPriceE (startDate times) (endDate times) (startHour times) (endHour times);;
    match htr with
    | None => logEvent ErrHTTPExiting;;; ret []
    | Some res =>
        r <- extractPricesFromGetImPriceE res;;
        let '(prices, err) := r in
        if err then logEvent ErrTodayExiting;;; ret prices
        else ret prices
    end.

Definition readFile (path : string) : Run string :=
  fs <- gets files;;
  match fs !! path with
  | None => logEvent (ErrPathDoesNotExist path);;; ret ""
  | Some content =>
      if Readable host path then ret content
      else logEvent (ErrFailedToOpen path);;; ret ""
  end.

Definition writeFile (path frequency : string) : Run bool :=
  modify (addWritten (path, frequency));;;
  if Writable host path frequency then
    fs <- gets files;;
    modify (setFiles (<[path := frequency]> fs));;;
    ret false
  else
    logEvent (ErrWriting frequency path);;; ret true.

Definition getAvailableCPUFrequencies (path : string) : Run (list string) :=
  fc <- readFile path;;
  if String.eqb fc "" then ret []
  else ret (Split fc " ").

(** The loop of lines 341 to 348, and of lines 351 to 358. *)
Definition scaleCores (target : Z) : Run unit :=
  forUpTo (NumCPU host - 1)
    (λ i _,
       err <- writeFile (scalingMaxFreqFile i) (Itoa target);;
       if err : bool then logEvent (InfoNotScaling i target)
       else logEvent (InfoScaling i target))
    tt.

Definition scaleCPUFrequency (prices : list float32) : Run unit :=
  c <- countTrend prices;;
  let '(dec, inc) := c in
  frequencies <- getAvailableCPUFrequencies scalingAvailableFrequenciesFile;;
  let '(minF, maxF) := frequencyRange frequencies in
  if dec <? inc then
    logEvent InfoIncreasing;;; scaleCores minF
  else
    logEvent InfoDecreasing;;; scaleCores maxF.

Definition getEnvironmentVariables : Run unit :=
  let hours := Getenv host "HOURS" in
  (if (String.length hours =? 0)%nat then modify (setHoursInThePast (-3))
   else match ParseDuration host hours with
        | Some d => modify (setHoursInThePast d)
        | None =>
            modify (setHoursInThePast (-3));;;
            logEvent (InfoParsingHours hours)
        end);;;
  let wsdls := Getenv host "WSDL" in
  if (String.length wsdls =? 0)%nat then
    modify (setWsdlService "https://www.ote-cr.cz/services/PublicDataService")
  else modify (setWsdlService wsdls).

Definition main : Run unit :=
  getEnvironmentVariables;;;
  times <- getTimeRange;;
  prices <- getElectrictyPrices times;;
  scaleCPUFrequency prices.

End Program.

(** ** The specification's vocabulary *)

(** The adjacent pairs of a series, (earlier, later), in order. *)
Fixpoint adjacentPairs {A} (l : list A) : list (A * A) :=
  match l with
  | earlier :: (later :: _) as rest => (earlier, later) :: adjacentPairs rest
  | _ => []
  end.

Definition countIf {A} (p : A → bool) (l : list A) : Z :=
  Z.of_nat (length (List.filter p l)).

(** A pair is a decrease when the later value is less than or equal to the
    earlier one, and an increase otherwise. *)
Definition isDecrease (p : float32 * float32) : bool := f32le (snd p) (fst p).

Definition decreases (prices : list float32) : Z :=
  countIf isDecrease (adjacentPairs prices).

Definition increases (prices : list float32) : Z :=
  countIf (λ p, negb (isDecrease p)) (adjacentPairs prices).

(** The entries of the capability file that parse as integers. *)
Definition parsedEntries (frequencies : list string) : list Z :=
  omap Atoi frequencies.

(** The entries [getAvailableCPUFrequencies] finds in the capability file. *)
Definition capabilityEntries (host : Host) (w : World) : list string :=
  match files w !! scalingAvailableFrequenciesFile with
  | Some content =>
      if Readable host scalingAvailableFrequenciesFile
      then (if String.eqb content "" then [] else Split content " ")
      else []
  | None => []
  end.

(** The frequency the specification selects as ceiling: the minimum available
    one if and only if increases strictly outnumber decreases, the maximum
    available one in every other case. *)
Definition chosenTarget (host : Host) (prices : list float32) (w : World) : Z :=
  let '(minF, maxF) := frequencyRange (capabilityEntries host w) in
  if decreases prices <? increases prices then minF else maxF.

(** The writes the specification asks for on a host of [n] cores: the target
    as a decimal string to the control file of the cores 0 to [n - 2]. *)
Definition ceilingWrites (n : Z) (data : string) : list (string * string) :=
  (λ i, (scalingMaxFreqFile i, data)) <$> seqZ 0 (n - 1).

(** A world with more lines logged and nothing else changed. *)
Definition appendLog (es : list Event) (w : World) : World :=
  {| hoursInThePast := hoursInThePast w; wsdlService := wsdlService w; files := files w;
     sent := sent w; fetched := fetched w; written := written w;
     logged := logged w ++ es |}.

(** The world after capability discovery: a line is logged when the file is
    missing or unreadable. *)
Definition afterDiscovery (host : Host) (w : World) : World :=
  match files w !! scalingAvailableFrequenciesFile with
  | None => addLogged (ErrPathDoesNotExist scalingAvailableFrequenciesFile) w
  | Some _ =>
      if Readable host scalingAvailableFrequenciesFile then w
      else addLogged (ErrFailedToOpen scalingAvailableFrequenciesFile) w
  end.

(** The world after the write attempt on core [i]. *)
Definition coreStep (host : Host) (target : Z) (w : World) (i : Z) : World :=
  let path := scalingMaxFreqFile i in
  let data := Itoa target in
  let w1 := addWritten (path, data) w in
  if Writable host path data
  then addLogged (InfoScaling i target) (setFiles (<[path := data]> (files w1)) w1)
  else addLogged (InfoNotScaling i target) (addLogged (ErrWriting data path) w1).

(** The request [GetImPriceE] builds for a fetch. *)
Definition imPriceRequest (url : string) (f : Fetch) : Request :=
  {| reqURL := url; reqContentType := "text/xml"; reqSOAPAction := "urn:GetImPriceE";
     reqPayload := TrimSpace (imPriceEnvelope (fetchStartDate f) (fetchEndDate f)
                                (fetchStartHour f) (fetchEndHour f)) |}.

(** The response a fetch obtains from the service at [url] after the requests
    [before]: none when the request cannot be built, when the transport fails
    or when the status is not exactly "200 OK". *)
Definition fetchResponse (host : Host) (url : string) (before : list Request) (f : Fetch)
  : option Response :=
  if NewRequest host url then
    match Do host before (imPriceRequest url f) with
    | Some res => if String.eqb (Status res) "200 OK" then Some res else None
    | None => None
    end
  else None.

(** Whether the body of a response fails to decode. *)
Definition decodeFails (res : Response) : bool := snd (Decode (Body res)).

(** The prices a response yields: those of its items in document order, and
    none when the body fails to decode. *)
Definition pricesOf (res : Response) : list float32 :=
  if decodeFails res then [] else itemPrice <$> fst (Decode (Body res)).

(** A record with a field that fails its typed coercion. *)
Definition failsCoercion (r : RawItem) : Prop :=
  (∃ text, rawHour r = Uncoercible text) ∨
  (∃ text, rawPrice r = Uncoercible text) ∨
  (∃ text, rawVolume r = Uncoercible text).

(** The lines [extractPricesFromGetImPriceE] logs for a response. *)
Definition extractLog (res : Response) : list Event :=
  if decodeFails res then [ErrUnmarshal]
  else (λ s, InfoItem (itemDate s) (itemHour s) (itemPrice s) (itemVolume s))
         <$> fst (Decode (Body res)).

(** The world after [sendRequest]. *)
Definition afterSend (host : Host) (req : Request) (w : World) : World :=
  if NewRequest host (wsdlService w) then
    match Do host (sent w) req with
    | None => addLogged ErrDispatchingRequest (addSent req w)
    | Some res =>
        if String.eqb (Status res) "200 OK" then addSent req w
        else addLogged (ErrStatus (Status res)) (addSent req w)
    end
  else addLogged ErrCreatingRequest w.

(** The three fetches of the orchestrator. *)
Definition wholeWindow (times : Times) : Fetch :=
  {| fetchStartDate := startDate times; fetchEndDate := endDate times;
     fetchStartHour := startHour times; fetchEndHour := endHour times |}.

Definition earlierDay (times : Times) : Fetch :=
  {| fetchStartDate := startDate times; fetchEndDate := startDate times;
     fetchStartHour := startHour times; fetchEndHour := "24" |}.

Definition laterDay (times : Times) : Fetch :=
  {| fetchStartDate := endDate times; fetchEndDate := endDate times;
     fetchStartHour := "0"; fetchEndHour := endHour times |}.

(** The window between two instants: the hours of the day and the dates, as
    text. *)
Definition windowOf (before now : Time) : Times :=
  {| startDate := formatDate (DateOf before); endDate := formatDate (DateOf now);
     startHour := Itoa (HourOf before); endHour := Itoa (HourOf now) |}.

(** ** Fixtures *)

(** A host with four cores whose service is unreachable and whose sysfs
    refuses writes to core 1. *)
Definition fourCores : Host :=
  {| Getenv := λ _, "";
     ParseDuration := λ _, None;
     LoadLocation := λ _, Some (λ _, 3600);
     Now := 1704069000000000000;
     NumCPU := 4;
     NewRequest := λ _, true;
     Do := λ _ _, None;
     Readable := λ _, true;
     Writable := λ path _, negb (String.eqb path (scalingMaxFreqFile 1)) |}.

Definition blank : World :=
  {| hoursInThePast := 0; wsdlService := ""; files := ∅; sent := []; fetched := [];
     written := []; logged := [] |}.

(** A world whose capability file lists three frequencies. *)
Definition threeFrequencies : World :=
  setFiles {[ scalingAvailableFrequenciesFile := "800000 1200000 1600000" ]} blank.

(** A window from 22 h on New Year's Eve to 1 h on New Year's Day. *)
Definition overMidnight : Times :=
  {| startDate := "2023-12-31"; endDate := "2024-01-01"; startHour := "22"; endHour := "1" |}.

Definition quotation (date : string) (hour price : Z) : RawItem :=
  {| rawDate := date; rawHour := Coerces hour; rawPrice := Coerces (f32 price 0);
     rawVolume := Coerces (f32 1 0) |}.

Definition answer (status : string) (raws : list RawItem) : Response :=
  {| Status := status; Body := Envelope raws |}.

(** What the service has for the later day. *)
Definition laterDayQuotations : list RawItem :=
  [quotation "2024-01-01" 0 5; quotation "2024-01-01" 1 6].

(** A host whose service answers the first request with [first] and every
    later one with the quotations of the later day. *)
Definition serving (first : option Response) : Host :=
  {| Getenv := λ _, "";
     ParseDuration := λ _, None;
     LoadLocation := λ _, Some (λ _, 3600);
     Now := 1704069000000000000;
     NumCPU := 4;
     NewRequest := λ _, true;
     Do := λ before _,
       match before with
       | [] => first
       | _ => Some (answer "200 OK" laterDayQuotations)
       end;
     Readable := λ _, true;
     Writable := λ _ _, true |}.

(** An item of the earlier day whose hour is not a number. *)
Definition garbledItem : RawItem :=
  {| rawDate := "2023-12-31"; rawHour := Uncoercible "2x"; rawPrice := Coerces (f32 7 0);
     rawVolume := Coerces (f32 1 0) |}.

(** A host at 01:30 on 2024-01-01 in a zone one hour east of UTC, with
    [HOURS] set to [hours], which parses as [parsed]. *)
Definition atNewYear (hours : string) (parsed : option Z) : Host :=
  {| Getenv := λ name, if String.eqb name "HOURS" then hours else "";
     ParseDuration := λ s, if String.eqb s hours then parsed else None;
     LoadLocation := λ _, Some (λ _, 3600);
     Now := 1704069000000000000;
     NumCPU := 4;
     NewRequest := λ _, true;
     Do := λ _ _, None;
     Readable := λ _, true;
     Writable := λ _ _, true |}.

(** The endpoint the environment configures: [WSDL], or the public service of
    OTE when it is unset. *)
Definition endpoint (host : Host) : string :=
  if (String.length (Getenv host "WSDL") =? 0)%nat
  then "https://www.ote-cr.cz/services/PublicDataService"
  else Getenv host "WSDL".

(** The look-back the environment configures, as [hoursInThePast] holds it. *)
Definition configuredHours (host : Host) : Z :=
  if (String.length (Getenv host "HOURS") =? 0)%nat then -3
  else match ParseDuration host (Getenv host "HOURS") with
       | Some d => d
       | None => -3
       end.



(** A host without time zone data. *)
Definition noZone : Host :=
  {| Getenv := λ _, "";
     ParseDuration := λ _, None;
     LoadLocation := λ _, None;
     Now := 1704069000000000000;
     NumCPU := 4;
     NewRequest := λ _, true;
     Do := λ _ _, Some (answer "200 OK" laterDayQuotations);
     Readable := λ _, true;
     Writable := λ _ _, true |}.

(** A host at 14:30 on 2024-06-15 in a zone two hours east of UTC. *)
Definition inTheAfternoon : Host :=
  {| Getenv := λ _, "";
     ParseDuration := λ _, None;
     LoadLocation := λ _, Some (λ _, 7200);
     Now := 1718454600000000000;
     NumCPU := 4;
     NewRequest := λ _, true;
     Do := λ _ _, Some (answer "200 OK" laterDayQuotations);
     Readable := λ _, true;
     Writable := λ _ _, true |}.

(** The window from 11 h to 14 h of that afternoon. *)
Definition thatAfternoon : Times :=
  {| startDate := "2024-06-15"; endDate := "2024-06-15"; startHour := "11";
     endHour := "14" |}.

(** The minimum, and the maximum, available frequency in the specification's
    sense: an entry of the list that no entry is below, respectively above. *)
Definition isMinimumOf (m : Z) (available : list Z) : Prop :=
  m ∈ available ∧ ∀ f, f ∈ available → m ≤ f.

Definition isMaximumOf (m : Z) (available : list Z) : Prop :=
  m ∈ available ∧ ∀ f, f ∈ available → f ≤ m.

(** A world whose capability file lists the one frequency 20000000. *)
Definition oneFastFrequency : World :=
  setFiles {[ scalingAvailableFrequenciesFile := "20000000" ]} blank.

(** ** Properties *)

(** *** The library models on examples *)

Example Itoa_ex : Itoa 0 = "0" ∧ Itoa (-15) = "-15" ∧ Itoa 1600000 = "1600000".
Proof. repeat split; reflexivity. Qed.

Example Atoi_ex :
  Atoi "800000" = Some 800000 ∧ Atoi "-7" = Some (-7) ∧ Atoi "+07" = Some 7 ∧
  Atoi "" = None ∧ Atoi "-" = None ∧ Atoi "12a" = None ∧
  Atoi "9223372036854775807" = Some int64_max ∧
  Atoi "9223372036854775808" = None ∧
  Atoi "-9223372036854775808" = Some int64_min.
Proof. repeat split; vm_compute; reflexivity. Qed.

Example Split_ex :
  Split "a b" " " = ["a"; "b"] ∧ Split "a  b " " " = ["a"; ""; "b"; ""] ∧
  Split "" " " = [""].
Proof. repeat split; reflexivity. Qed.

Example pad0_ex :
  pad0 4 2024 = "2024" ∧ pad0 2 6 = "06" ∧ pad0 4 (-1) = "-001" ∧ pad0 2 123 = "123".
Proof. repeat split; vm_compute; reflexivity. Qed.

Example civil_ex :
  civil 0 = (1970, 1, 1) ∧ civil 19723 = (2024, 1, 1) ∧ civil 19782 = (2024, 2, 29) ∧
  civil (-1) = (1969, 12, 31) ∧ civil 11016 = (2000, 2, 29).
Proof. repeat split; vm_compute; reflexivity. Qed.

Example f32le_ex :
  f32le (f32 9 0) (f32 10 0) = true ∧ f32le (f32 10 0) (f32 10 0) = true ∧
  f32le (f32 11 0) (f32 10 0) = false ∧ f32le S754_nan (f32 10 0) = false ∧
  f32le (f32 (-3) 0) (f32 1 (-1)) = true.
Proof. repeat split; vm_compute; reflexivity. Qed.

Example payload_ex :
  nl +:+ tab +:+ TrimSpace (imPriceEnvelope "2023-12-31" "2023-12-31" "22" "24") =
  imPriceEnvelope "2023-12-31" "2023-12-31" "22" "24".
Proof. vm_compute. reflexivity. Qed.

Example countTrend_nan :
  decreases [S754_nan; f32 1 0] = 0 ∧ increases [S754_nan; f32 1 0] = 1 ∧
  decreases [f32 1 0; S754_nan] = 0 ∧ increases [f32 1 0; S754_nan] = 1.
Proof. repeat split; vm_compute; reflexivity. Qed.

Example wrap64_ex :
  wrap64 (-3 * Hour) = -10800000000000 ∧ wrap64 (2 ^ 63) = - 2 ^ 63 ∧
  wrap64 (-10800000000000 * Hour) = -430027188864024576.
Proof. repeat split; vm_compute; reflexivity. Qed.

(** Unfolds the primitive steps of the monad. *)
Ltac unfold_run := unfold bind, gets, modify, logEvent, ret.

(** *** The trend classifier *)

Lemma index_middle {A} (pre : list A) (x : A) (post : list A) (i : Z) (w : World) :
  i = Z.of_nat (length pre) →
  index (pre ++ x :: post) i w = (Returned x, w).
Proof.
  intros ->. unfold index.
  destruct (Z.ltb_spec (Z.of_nat (length pre)) 0) as [Hneg|_]; [lia|].
  rewrite Nat2Z.id, list_lookup_middle by reflexivity. reflexivity.
Qed.

Lemma trendStep_middle pre earlier later post dec inc w :
  trendStep (pre ++ earlier :: later :: post) (Z.of_nat (length pre)) (dec, inc) w =
  (Returned (if isDecrease (earlier, later) then (dec + 1, inc) else (dec, inc + 1)), w).
Proof.
  unfold trendStep, bind.
  replace (pre ++ earlier :: later :: post) with ((pre ++ [earlier]) ++ later :: post)
    at 1 by (rewrite <- app_assoc; reflexivity).
  rewrite index_middle by (rewrite length_app; simpl; lia).
  rewrite index_middle by reflexivity.
  unfold isDecrease; simpl. destruct (f32le later earlier); reflexivity.
Qed.

Lemma decreases_cons2 earlier later rest :
  decreases (earlier :: later :: rest) =
  (if isDecrease (earlier, later) then 1 else 0) + decreases (later :: rest).
Proof.
  unfold decreases, countIf. cbn [adjacentPairs List.filter].
  destruct (isDecrease (earlier, later)); cbn [length]; lia.
Qed.

Lemma increases_cons2 earlier later rest :
  increases (earlier :: later :: rest) =
  (if isDecrease (earlier, later) then 0 else 1) + increases (later :: rest).
Proof.
  unfold increases, countIf. cbn [adjacentPairs List.filter].
  destruct (isDecrease (earlier, later)); cbn [length negb]; lia.
Qed.

(** The loop invariant: once the indices below [length pre] are done, the rest
    of the loop adds the counts of the pairs of [l]. *)
Lemma countTrend_from (l pre : list float32) (dec inc : Z) (w : World) :
  forEach (seqZ (Z.of_nat (length pre)) (Z.of_nat (length l) - 1))
          (trendStep (pre ++ l)) (dec, inc) w =
  (Returned (dec + decreases l, inc + increases l), w).
Proof.
  revert pre dec inc.
  induction l as [|earlier l IH]; intros pre dec inc.
  - rewrite seqZ_nil by (cbn [length]; lia).
    cbn. unfold ret, decreases, increases, countIf. cbn. do 3 f_equal; lia.
  - destruct l as [|later rest].
    + rewrite seqZ_nil by (cbn [length]; lia).
      cbn. unfold ret, decreases, increases, countIf. cbn. do 3 f_equal; lia.
    + rewrite seqZ_cons by (cbn [length]; lia).
      cbn [forEach]. unfold bind at 1. rewrite trendStep_middle.
      rewrite decreases_cons2, increases_cons2.
      specialize (IH (pre ++ [earlier])).
      rewrite <- app_assoc in IH. cbn [app] in IH.
      replace (Z.succ (Z.of_nat (length pre)))
        with (Z.of_nat (length (pre ++ [earlier])))
        by (rewrite length_app; cbn [length]; lia).
      replace (Z.pred (Z.of_nat (length (earlier :: later :: rest)) - 1))
        with (Z.of_nat (length (later :: rest)) - 1)
        by (cbn [length]; lia).
      destruct (isDecrease (earlier, later)); rewrite IH; do 3 f_equal; lia.
Qed.

Lemma countTrend_spec (prices : list float32) (w : World) :
  countTrend prices w = (Returned (decreases prices, increases prices), w).
Proof.
  unfold countTrend, forUpTo.
  exact (countTrend_from prices [] 0 0 w).
Qed.

(** Every adjacent pair is counted once, as a decrease or as an increase; the
    counters stay below [len(prices)] and so within Go's [int]. *)
Lemma counts_cover_pairs (prices : list float32) :
  decreases prices + increases prices = Z.of_nat (length (adjacentPairs prices)) ∧
  0 ≤ decreases prices ∧ 0 ≤ increases prices ∧
  Z.of_nat (length (adjacentPairs prices)) = Z.max 0 (Z.of_nat (length prices) - 1).
Proof.
  induction prices as [|earlier rest IH].
  - unfold decreases, increases, countIf. cbn. lia.
  - destruct rest as [|later rest].
    + unfold decreases, increases, countIf. cbn. lia.
    + rewrite decreases_cons2, increases_cons2.
      cbn [adjacentPairs length] in IH |- *.
      destruct (isDecrease (earlier, later)); lia.
Qed.

(** *** Frequency discovery *)

Lemma narrow_min_max (a b : Z) (frequency : string) :
  narrow (a, b) frequency =
  match Atoi frequency with
  | Some f => (Z.min a f, Z.max b f)
  | None => (a, b)
  end.
Proof.
  unfold narrow. destruct (Atoi frequency) as [f|]; [|reflexivity].
  destruct (Z.ltb_spec b f), (Z.ltb_spec f a); f_equal; lia.
Qed.

Lemma parsedEntries_cons (frequency : string) (rest : list string) :
  parsedEntries (frequency :: rest) =
  match Atoi frequency with
  | Some f => f :: parsedEntries rest
  | None => parsedEntries rest
  end.
Proof. reflexivity. Qed.

Lemma frequencyRange_from (frequencies : list string) (a b : Z) :
  fold_left narrow frequencies (a, b) =
  (fold_left Z.min (parsedEntries frequencies) a,
   fold_left Z.max (parsedEntries frequencies) b).
Proof.
  revert a b. induction frequencies as [|frequency rest IH]; intros a b; [reflexivity|].
  cbn [fold_left]. rewrite narrow_min_max, parsedEntries_cons.
  destruct (Atoi frequency) as [f|]; cbn [fold_left]; apply IH.
Qed.

Lemma fold_min_le (l : list Z) (a : Z) :
  fold_left Z.min l a ≤ a ∧ ∀ f, f ∈ l → fold_left Z.min l a ≤ f.
Proof.
  revert a. induction l as [|x l IH]; intros a; cbn [fold_left].
  - split; [lia|]. intros f Hf. inversion Hf.
  - destruct (IH (Z.min a x)) as [Hstart Helem]. split; [lia|].
    intros f [->|Hf]%elem_of_cons; [lia|auto].
Qed.

Lemma fold_max_ge (l : list Z) (b : Z) :
  b ≤ fold_left Z.max l b ∧ ∀ f, f ∈ l → f ≤ fold_left Z.max l b.
Proof.
  revert b. induction l as [|x l IH]; intros b; cbn [fold_left].
  - split; [lia|]. intros f Hf. inversion Hf.
  - destruct (IH (Z.max b x)) as [Hstart Helem]. split; [lia|].
    intros f [->|Hf]%elem_of_cons; [lia|auto].
Qed.

Lemma fold_min_choice (l : list Z) (a : Z) :
  fold_left Z.min l a = a ∨ fold_left Z.min l a ∈ l.
Proof.
  revert a. induction l as [|x l IH]; intros a; cbn [fold_left]; [left; reflexivity|].
  destruct (IH (Z.min a x)) as [Heq|Hin].
  - rewrite Heq. destruct (Z.min_spec a x) as [[_ ->]|[_ ->]]; [left; reflexivity|].
    right. left.
  - right. right. exact Hin.
Qed.

Lemma fold_max_choice (l : list Z) (b : Z) :
  fold_left Z.max l b = b ∨ fold_left Z.max l b ∈ l.
Proof.
  revert b. induction l as [|x l IH]; intros b; cbn [fold_left]; [left; reflexivity|].
  destruct (IH (Z.max b x)) as [Heq|Hin].
  - rewrite Heq. destruct (Z.max_spec b x) as [[_ ->]|[_ ->]]; [right; left|].
    left; reflexivity.
  - right. right. exact Hin.
Qed.

Lemma fold_min_drawn (l : list Z) (a f : Z) :
  f ∈ l → f ≤ a → fold_left Z.min l a ∈ l.
Proof.
  intros Hf Hle. destruct (fold_min_choice l a) as [Heq|Hin]; [|exact Hin].
  destruct (fold_min_le l a) as [_ Helem]. specialize (Helem f Hf).
  rewrite Heq in *. replace a with f by lia. exact Hf.
Qed.

Lemma fold_max_drawn (l : list Z) (b f : Z) :
  f ∈ l → b ≤ f → fold_left Z.max l b ∈ l.
Proof.
  intros Hf Hle. destruct (fold_max_choice l b) as [Heq|Hin]; [|exact Hin].
  destruct (fold_max_ge l b) as [_ Helem]. specialize (Helem f Hf).
  rewrite Heq in *. replace b with f by lia. exact Hf.
Qed.

Lemma parsedEntries_nil (frequencies : list string) :
  (∀ entry, entry ∈ frequencies → Atoi entry = None) → parsedEntries frequencies = [].
Proof.
  induction frequencies as [|entry rest IH]; intros Hnone; [reflexivity|].
  rewrite parsedEntries_cons, (Hnone entry) by left.
  apply IH. intros e He. apply Hnone. right. exact He.
Qed.

Lemma getAvailableCPUFrequencies_spec (host : Host) (w : World) :
  getAvailableCPUFrequencies host scalingAvailableFrequenciesFile w =
  (Returned (capabilityEntries host w), afterDiscovery host w).
Proof.
  unfold getAvailableCPUFrequencies, readFile, capabilityEntries, afterDiscovery.
  unfold_run.
  destruct (files w !! scalingAvailableFrequenciesFile) as [content|]; cbn.
  - destruct (Readable host scalingAvailableFrequenciesFile); cbn; [|reflexivity].
    destruct (String.eqb content ""); reflexivity.
  - reflexivity.
Qed.

Lemma afterDiscovery_frame (host : Host) (w : World) :
  files (afterDiscovery host w) = files w ∧
  written (afterDiscovery host w) = written w ∧
  sent (afterDiscovery host w) = sent w.
Proof.
  unfold afterDiscovery.
  destruct (files w !! scalingAvailableFrequenciesFile);
    [destruct (Readable host scalingAvailableFrequenciesFile)|]; auto.
Qed.

(** *** The per-core writes *)

Lemma scaleCores_step (host : Host) (target i : Z) (w : World) :
  bind (writeFile host (scalingMaxFreqFile i) (Itoa target))
       (λ err : bool, if err then logEvent (InfoNotScaling i target)
                      else logEvent (InfoScaling i target)) w =
  (Returned tt, coreStep host target w i).
Proof.
  unfold writeFile, coreStep. unfold_run. cbn.
  destruct (Writable host (scalingMaxFreqFile i) (Itoa target)); reflexivity.
Qed.

Lemma scaleCores_over (host : Host) (target : Z) (cores : list Z) (w : World) :
  forEach cores
    (λ i (_ : unit),
       err <- writeFile host (scalingMaxFreqFile i) (Itoa target);;
       if err : bool then logEvent (InfoNotScaling i target)
       else logEvent (InfoScaling i target)) tt w =
  (Returned tt, fold_left (coreStep host target) cores w).
Proof.
  revert w. induction cores as [|i cores IH]; intros w; [reflexivity|].
  cbn [forEach fold_left]. unfold bind at 1. rewrite scaleCores_step. apply IH.
Qed.

Lemma scaleCores_spec (host : Host) (target : Z) (w : World) :
  scaleCores host target w =
  (Returned tt, fold_left (coreStep host target) (seqZ 0 (NumCPU host - 1)) w).
Proof. unfold scaleCores, forUpTo. apply scaleCores_over. Qed.

(** The whole of [scaleCPUFrequency]: it returns, in the world where the
    discovery and the trend have been logged and each core stepped through. *)
Lemma scaleCPUFrequency_spec (host : Host) (prices : list float32) (w : World) :
  scaleCPUFrequency host prices w =
  (Returned tt,
   fold_left (coreStep host (chosenTarget host prices w)) (seqZ 0 (NumCPU host - 1))
     (addLogged (if decreases prices <? increases prices
                 then InfoIncreasing else InfoDecreasing)
        (afterDiscovery host w))).
Proof.
  unfold scaleCPUFrequency, chosenTarget.
  unfold bind at 1. rewrite countTrend_spec.
  unfold bind at 1. rewrite getAvailableCPUFrequencies_spec.
  destruct (frequencyRange (capabilityEntries host w)) as [minF maxF].
  destruct (decreases prices <? increases prices);
    unfold bind, logEvent, modify; rewrite scaleCores_spec; reflexivity.
Qed.

Lemma coreSteps_written (host : Host) (target : Z) (cores : list Z) (w : World) :
  written (fold_left (coreStep host target) cores w) =
  written w ++ ((λ i, (scalingMaxFreqFile i, Itoa target)) <$> cores).
Proof.
  revert w. induction cores as [|i cores IH]; intros w; cbn [fold_left fmap list_fmap].
  - rewrite app_nil_r. reflexivity.
  - rewrite IH. unfold coreStep.
    destruct (Writable host (scalingMaxFreqFile i) (Itoa target)); cbn;
      rewrite <- app_assoc; reflexivity.
Qed.

Lemma coreStep_files (host : Host) (target i : Z) (w : World) :
  files (coreStep host target w i) =
  if Writable host (scalingMaxFreqFile i) (Itoa target)
  then <[scalingMaxFreqFile i := Itoa target]> (files w) else files w.
Proof.
  unfold coreStep. destruct (Writable host (scalingMaxFreqFile i) (Itoa target)); reflexivity.
Qed.

(** A path that is not the control file of one of the cores stepped through
    keeps its content. *)
Lemma coreSteps_frame (host : Host) (target : Z) (cores : list Z) (w : World) (p : string) :
  (∀ i, i ∈ cores → p ≠ scalingMaxFreqFile i) →
  files (fold_left (coreStep host target) cores w) !! p = files w !! p.
Proof.
  revert w. induction cores as [|i cores IH]; intros w Hother; [reflexivity|].
  cbn [fold_left]. rewrite IH by (intros j Hj; apply Hother; right; exact Hj).
  rewrite coreStep_files.
  destruct (Writable host (scalingMaxFreqFile i) (Itoa target)); [|reflexivity].
  apply lookup_insert_ne. intros Heq. apply (Hother i); [left|auto].
Qed.

(** A core whose write is accepted ends with the target in its control file. *)
Lemma coreSteps_accepted (host : Host) (target : Z) (cores : list Z) (w : World) (i : Z) :
  i ∈ cores →
  Writable host (scalingMaxFreqFile i) (Itoa target) = true →
  files (fold_left (coreStep host target) cores w) !! scalingMaxFreqFile i = Some (Itoa target).
Proof.
  intros Hin Hok.
  assert (Hkeep : ∀ cores' w',
    files w' !! scalingMaxFreqFile i = Some (Itoa target) →
    files (fold_left (coreStep host target) cores' w') !! scalingMaxFreqFile i
    = Some (Itoa target)).
  { induction cores' as [|j cores' IH]; intros w' Hw'; [exact Hw'|].
    cbn [fold_left]. apply IH. rewrite coreStep_files.
    destruct (Writable host (scalingMaxFreqFile j) (Itoa target)); [|exact Hw'].
    destruct (decide (scalingMaxFreqFile j = scalingMaxFreqFile i)) as [->|Hne].
    - apply lookup_insert_eq.
    - rewrite lookup_insert_ne by exact Hne. exact Hw'. }
  revert w. induction cores as [|j cores IH]; intros w; [inversion Hin|].
  cbn [fold_left]. apply elem_of_cons in Hin as [->|Hin].
  - apply Hkeep. rewrite coreStep_files, Hok. apply lookup_insert_eq.
  - apply IH. exact Hin.
Qed.

(** A core whose write is refused keeps the content of its control file. *)
Lemma coreSteps_refused (host : Host) (target : Z) (cores : list Z) (w : World) (i : Z) :
  Writable host (scalingMaxFreqFile i) (Itoa target) = false →
  files (fold_left (coreStep host target) cores w) !! scalingMaxFreqFile i =
  files w !! scalingMaxFreqFile i.
Proof.
  intros Hrefused. revert w. induction cores as [|j cores IH]; intros w; [reflexivity|].
  cbn [fold_left]. rewrite IH, coreStep_files.
  destruct (Writable host (scalingMaxFreqFile j) (Itoa target)) eqn:Hj; [|reflexivity].
  apply lookup_insert_ne. intros Heq. rewrite Heq in Hj. congruence.
Qed.

Lemma coreSteps_logged (host : Host) (target : Z) (cores : list Z) (w : World) :
  (∀ e, e ∈ logged w → e ∈ logged (fold_left (coreStep host target) cores w)) ∧
  (∀ i, i ∈ cores →
     if Writable host (scalingMaxFreqFile i) (Itoa target)
     then InfoScaling i target ∈ logged (fold_left (coreStep host target) cores w)
     else ErrWriting (Itoa target) (scalingMaxFreqFile i)
            ∈ logged (fold_left (coreStep host target) cores w) ∧
          InfoNotScaling i target ∈ logged (fold_left (coreStep host target) cores w)).
Proof.
  revert w. induction cores as [|j cores IH]; intros w; cbn [fold_left].
  - split; [auto|]. intros i Hi. inversion Hi.
  - destruct (IH (coreStep host target w j)) as [Hkeep Hcores].
    assert (Hstep : ∀ e, e ∈ logged w → e ∈ logged (coreStep host target w j)).
    { intros e He. unfold coreStep.
      destruct (Writable host (scalingMaxFreqFile j) (Itoa target)); cbn;
        rewrite ?elem_of_app; auto. }
    split; [auto|].
    intros i [->|Hi]%elem_of_cons; [|exact (Hcores i Hi)].
    unfold coreStep in Hkeep |- *.
    destruct (Writable host (scalingMaxFreqFile j) (Itoa target)).
    + apply Hkeep. cbn. rewrite elem_of_app. right. left.
    + split; apply Hkeep; cbn; rewrite !elem_of_app.
      * left. right. left.
      * right. left.
Qed.

(** *** Control-file paths *)

Lemma Itoa_inj (n m : Z) : Itoa n = Itoa m → n = m.
Proof.
  unfold Itoa. intros Heq. apply DecimalZ.to_int_inj.
  apply (f_equal NilEmpty.int_of_string) in Heq.
  rewrite !NilEmpty.isi in Heq. congruence.
Qed.

(** The digits [Itoa] prints, never empty, begin with a digit. *)
Lemma string_of_uint_head (d : Decimal.uint) :
  d ≠ Decimal.Nil →
  ∃ c rest, NilEmpty.string_of_uint d = String c rest ∧
            Ascii.eqb c "-" = false ∧ Ascii.eqb c "+" = false.
Proof.
  intros Hd. destruct d; [contradiction|..]; cbn [NilEmpty.string_of_uint];
    do 2 eexists; (split; [reflexivity|split; reflexivity]).
Qed.

Lemma Atoi_digits (p : positive) :
  in_int64 (Z.pos p) = true →
  Atoi (NilEmpty.string_of_uint (Pos.to_uint p)) = Some (Z.pos p).
Proof.
  intros Hrange.
  destruct (string_of_uint_head (Pos.to_uint p) (DecimalPos.Unsigned.to_uint_nonnil p))
    as (c & rest & Hs & Hminus & Hplus).
  unfold Atoi. rewrite Hs, Hminus, Hplus. rewrite <- Hs, NilEmpty.usu.
  unfold Z.of_uint. rewrite DecimalPos.Unsigned.of_to. cbn [Z.of_N].
  rewrite Hrange. reflexivity.
Qed.

(** What [Itoa] prints, [Atoi] reads back. *)
Lemma Atoi_Itoa (n : Z) : in_int64 n = true → Atoi (Itoa n) = Some n.
Proof.
  intros Hrange. unfold Itoa. destruct n as [|p|p]; cbn [Z.to_int NilEmpty.string_of_int].
  - reflexivity.
  - apply Atoi_digits. exact Hrange.
  - destruct (string_of_uint_head (Pos.to_uint p) (DecimalPos.Unsigned.to_uint_nonnil p))
      as (c & rest & Hs & _).
    unfold Atoi. cbn [Ascii.eqb Bool.eqb]. rewrite Hs. rewrite <- Hs, NilEmpty.usu.
    unfold Z.of_uint. rewrite DecimalPos.Unsigned.of_to. cbn [Z.of_N].
    change (- Z.pos p) with (Z.neg p). rewrite Hrange. reflexivity.
Qed.

Lemma Atoi_in_int64 (s : string) (v : Z) : Atoi s = Some v → in_int64 v = true.
Proof.
  unfold Atoi. intros Hparse.
  repeat case_match; simplify_eq; assumption.
Qed.

Lemma parsedEntries_in_int64 (frequencies : list string) (f : Z) :
  f ∈ parsedEntries frequencies → in_int64 f = true.
Proof.
  unfold parsedEntries. rewrite list_elem_of_omap.
  intros (entry & _ & Hentry). exact (Atoi_in_int64 entry f Hentry).
Qed.

(** The target fits Go's [int]: it is a parsed entry or one of the sentinels. *)
Lemma chosenTarget_in_int64 (host : Host) (prices : list float32) (w : World) :
  in_int64 (chosenTarget host prices w) = true.
Proof.
  unfold chosenTarget, frequencyRange. rewrite frequencyRange_from.
  set (parsed := parsedEntries (capabilityEntries host w)).
  destruct (decreases prices <? increases prices).
  - destruct (fold_min_choice parsed 10000000) as [->|Hin]; [reflexivity|].
    exact (parsedEntries_in_int64 _ _ Hin).
  - destruct (fold_max_choice parsed 0) as [->|Hin]; [reflexivity|].
    exact (parsedEntries_in_int64 _ _ Hin).
Qed.

Lemma string_length_app (s t : string) :
  String.length (s +:+ t) = (String.length s + String.length t)%nat.
Proof. induction s as [|c s IH]; simpl; [reflexivity|]. f_equal. exact IH. Qed.

Lemma string_app_inv_tail (s t tail : string) : s +:+ tail = t +:+ tail → s = t.
Proof.
  revert t. induction s as [|c s IH]; intros [|d t] Heq; simpl in Heq.
  - reflexivity.
  - apply (f_equal String.length) in Heq.
    rewrite ?string_length_app in Heq. simpl in Heq.
    rewrite ?string_length_app in Heq. lia.
  - apply (f_equal String.length) in Heq.
    rewrite ?string_length_app in Heq. simpl in Heq.
    rewrite ?string_length_app in Heq. lia.
  - injection Heq as -> Heq. f_equal. apply IH. exact Heq.
Qed.

Lemma scalingMaxFreqFile_inj (i j : Z) :
  scalingMaxFreqFile i = scalingMaxFreqFile j → i = j.
Proof.
  unfold scalingMaxFreqFile. intros Heq.
  apply String.app_inj in Heq. apply string_app_inv_tail in Heq.
  apply Itoa_inj. exact Heq.
Qed.

Lemma ceilingWrites_elem (n : Z) (data p d : string) :
  (p, d) ∈ ceilingWrites n data ↔
  d = data ∧ ∃ i, 0 ≤ i ≤ n - 2 ∧ p = scalingMaxFreqFile i.
Proof.
  unfold ceilingWrites. rewrite list_elem_of_fmap. split.
  - intros (i & Heq & Hi). injection Heq as -> ->. apply elem_of_seqZ in Hi.
    split; [reflexivity|]. exists i. split; [lia|reflexivity].
  - intros (-> & i & Hi & ->). exists i. split; [reflexivity|].
    apply elem_of_seqZ. lia.
Qed.

(** *** Claims about the trend-based scaler *)

Lemma scaleCPUFrequency_written (host : Host) (prices : list float32) (w : World) :
  ∃ w', scaleCPUFrequency host prices w = (Returned tt, w') ∧
        written w' = written w ++
                     ceilingWrites (NumCPU host) (Itoa (chosenTarget host prices w)) ∧
        (if decreases prices <? increases prices then InfoIncreasing else InfoDecreasing)
          ∈ logged w'.
Proof.
  eexists. split; [apply scaleCPUFrequency_spec|]. split.
  - rewrite coreSteps_written. cbn [written addLogged].
    destruct (afterDiscovery_frame host w) as (_ & -> & _). reflexivity.
  - apply coreSteps_logged. cbn [logged addLogged]. rewrite elem_of_app. right. left.
Qed.

(** C1 as stated fails: with the capability file listing the one frequency
    20000000 and a rising series, the scaler writes 10000000, which is no
    available frequency, let alone the minimum one; and with no capability
    file and a falling series it writes 0, with no frequency available at
    all. *)
Lemma C1_sentinel_is_no_available_frequency :
  (decreases [f32 10 0; f32 11 0; f32 12 0] = 0 ∧
   increases [f32 10 0; f32 11 0; f32 12 0] = 2 ∧
   parsedEntries (capabilityEntries fourCores oneFastFrequency) = [20000000] ∧
   written (snd (scaleCPUFrequency fourCores [f32 10 0; f32 11 0; f32 12 0]
                   oneFastFrequency))
   = ceilingWrites 4 "10000000" ∧
   ¬ isMinimumOf 10000000 (parsedEntries (capabilityEntries fourCores oneFastFrequency))) ∧
  (decreases [f32 10 0; f32 9 0; f32 8 0] = 2 ∧
   increases [f32 10 0; f32 9 0; f32 8 0] = 0 ∧
   parsedEntries (capabilityEntries fourCores blank) = [] ∧
   written (snd (scaleCPUFrequency fourCores [f32 10 0; f32 9 0; f32 8 0] blank))
   = ceilingWrites 4 "0" ∧
   ¬ isMaximumOf 0 (parsedEntries (capabilityEntries fourCores blank))).
Proof.
  split; (split; [reflexivity|split; [reflexivity|split; [vm_compute; reflexivity|
            split; [vm_compute; reflexivity|]]]]).
  - intros [Hin _]. vm_compute in Hin.
    apply elem_of_cons in Hin as [Heq|Hin]; [discriminate Heq|inversion Hin].
  - intros [Hin _]. vm_compute in Hin. inversion Hin.
Qed.

(** C1, as the code has it.  Over each adjacent pair the classifier counts a
    decrease when the later value is less than or equal to the earlier one
    and an increase otherwise, every pair once.  The scaler writes the
    smaller of 10000000 and the least parsed capability entry if and only if
    increases strictly outnumber decreases, and the larger of 0 and the
    greatest parsed entry in every other case; the former is the minimum
    available frequency as soon as some parsed entry is at most 10000000, the
    latter the maximum available one as soon as some parsed entry is at least
    0.  [10,9,8] gives decreases 2, increases 0 and the latter target;
    [10,11,12] gives increases 2, decreases 0 and the former; [10,10] gives
    decreases 1, increases 0 and the latter. *)
Theorem C1_trend_selects_ceiling :
  (∀ (host : Host) (prices : list float32) (w : World),
     countTrend prices w = (Returned (decreases prices, increases prices), w) ∧
     decreases prices + increases prices = Z.of_nat (length (adjacentPairs prices)) ∧
     let available := parsedEntries (capabilityEntries host w) in
     let target :=
       if decreases prices <? increases prices
       then fold_left Z.min available 10000000
       else fold_left Z.max available 0 in
     ∃ w', scaleCPUFrequency host prices w = (Returned tt, w') ∧
           written w' = written w ++ ceilingWrites (NumCPU host) (Itoa target) ∧
           (if decreases prices <? increases prices then InfoIncreasing else InfoDecreasing)
             ∈ logged w' ∧
           (decreases prices < increases prices →
            (∃ f, f ∈ available ∧ f ≤ 10000000) → isMinimumOf target available) ∧
           (increases prices ≤ decreases prices →
            (∃ f, f ∈ available ∧ 0 ≤ f) → isMaximumOf target available)) ∧
  (∀ (host : Host) (w : World),
     let available := parsedEntries (capabilityEntries host w) in
     (countTrend [f32 10 0; f32 9 0; f32 8 0] w = (Returned (2, 0), w) ∧
      ∃ w', scaleCPUFrequency host [f32 10 0; f32 9 0; f32 8 0] w = (Returned tt, w') ∧
            written w' = written w ++
              ceilingWrites (NumCPU host) (Itoa (fold_left Z.max available 0))) ∧
     (countTrend [f32 10 0; f32 11 0; f32 12 0] w = (Returned (0, 2), w) ∧
      ∃ w', scaleCPUFrequency host [f32 10 0; f32 11 0; f32 12 0] w = (Returned tt, w') ∧
            written w' = written w ++
              ceilingWrites (NumCPU host) (Itoa (fold_left Z.min available 10000000))) ∧
     (countTrend [f32 10 0; f32 10 0] w = (Returned (1, 0), w) ∧
      ∃ w', scaleCPUFrequency host [f32 10 0; f32 10 0] w = (Returned tt, w') ∧
            written w' = written w ++
              ceilingWrites (NumCPU host) (Itoa (fold_left Z.max available 0)))).
Proof.
  assert (Hwrites : ∀ (host : Host) (prices : list float32) (w : World),
    ∃ w', scaleCPUFrequency host prices w = (Returned tt, w') ∧
          written w' = written w ++
            ceilingWrites (NumCPU host)
              (Itoa (if decreases prices <? increases prices
                     then fold_left Z.min (parsedEntries (capabilityEntries host w)) 10000000
                     else fold_left Z.max (parsedEntries (capabilityEntries host w)) 0)) ∧
          (if decreases prices <? increases prices then InfoIncreasing else InfoDecreasing)
            ∈ logged w').
  { intros host prices w.
    destruct (scaleCPUFrequency_written host prices w) as (w' & Hrun & Hwritten & Hlog).
    exists w'. split; [exact Hrun|]. split; [|exact Hlog].
    rewrite Hwritten. unfold chosenTarget, frequencyRange. rewrite frequencyRange_from.
    destruct (decreases prices <? increases prices); reflexivity. }
  split.
  - intros host prices w. split; [apply countTrend_spec|].
    split; [apply counts_cover_pairs|]. intros available target.
    destruct (Hwrites host prices w) as (w' & Hrun & Hwritten & Hlog).
    exists w'. split; [exact Hrun|]. split; [exact Hwritten|]. split; [exact Hlog|].
    subst target. split.
    + intros Hrising (f & Hf & Hle).
      destruct (Z.ltb_spec (decreases prices) (increases prices)); [|lia].
      split; [exact (fold_min_drawn available 10000000 f Hf Hle)|].
      apply fold_min_le.
    + intros Hfalling (f & Hf & Hle).
      destruct (Z.ltb_spec (decreases prices) (increases prices)); [lia|].
      split; [exact (fold_max_drawn available 0 f Hf Hle)|].
      apply fold_max_ge.
  - intros host w available. subst available. rewrite !countTrend_spec.
    split; [|split]; (split; [reflexivity|]).
    + destruct (Hwrites host [f32 10 0; f32 9 0; f32 8 0] w) as (w' & Hrun & Hwritten & _).
      exists w'. split; [exact Hrun|exact Hwritten].
    + destruct (Hwrites host [f32 10 0; f32 11 0; f32 12 0] w) as (w' & Hrun & Hwritten & _).
      exists w'. split; [exact Hrun|exact Hwritten].
    + destruct (Hwrites host [f32 10 0; f32 10 0] w) as (w' & Hrun & Hwritten & _).
      exists w'. split; [exact Hrun|exact Hwritten].
Qed.

Lemma C1_trend_selects_ceiling_witness :
  ∃ w', scaleCPUFrequency fourCores [f32 10 0; f32 11 0; f32 12 0] threeFrequencies
        = (Returned tt, w') ∧
        written w' = ceilingWrites 4 "800000" ∧
        isMinimumOf 800000 [800000; 1200000; 1600000].
Proof.
  destruct (proj1 C1_trend_selects_ceiling fourCores [f32 10 0; f32 11 0; f32 12 0]
              threeFrequencies) as (_ & _ & w' & Hrun & Hwritten & _ & Hmin & _).
  exists w'. split; [exact Hrun|]. split; [exact Hwritten|].
  apply Hmin; [reflexivity|]. exists 800000. split; [left|lia].
Defined.

(** C7. On every price series, the empty and the one-element series included,
    the scaler returns without a panic; with fewer than two elements both
    counters stay zero and the scaler takes the branch of the maximum
    frequency. *)
Theorem C7_short_series_is_safe (host : Host) (prices : list float32) (w : World) :
  (∃ c, countTrend prices w = (Returned c, w)) ∧
  (∃ w', scaleCPUFrequency host prices w = (Returned tt, w')) ∧
  ((length prices < 2)%nat →
   countTrend prices w = (Returned (0, 0), w) ∧
   ∃ w', scaleCPUFrequency host prices w = (Returned tt, w') ∧
         InfoDecreasing ∈ logged w' ∧
         written w' = written w ++
           ceilingWrites (NumCPU host)
             (Itoa (snd (frequencyRange (capabilityEntries host w))))).
Proof.
  split; [eexists; apply countTrend_spec|].
  split; [eexists; apply scaleCPUFrequency_spec|].
  intros Hshort.
  assert (Hcounts : decreases prices = 0 ∧ increases prices = 0).
  { destruct prices as [|x [|y rest]]; cbn [length] in Hshort; [split; reflexivity..|lia]. }
  destruct Hcounts as [Hdec Hinc].
  split; [rewrite countTrend_spec, Hdec, Hinc; reflexivity|].
  destruct (scaleCPUFrequency_written host prices w) as (w' & Hrun & Hwritten & Hlog).
  exists w'. split; [exact Hrun|].
  unfold chosenTarget in Hwritten. rewrite Hdec, Hinc in Hlog, Hwritten.
  destruct (frequencyRange (capabilityEntries host w)) as [minF maxF].
  split; [exact Hlog|exact Hwritten].
Qed.

Lemma C7_short_series_is_safe_witness :
  (length [f32 5 0] < 2)%nat ∧
  countTrend [f32 5 0] threeFrequencies = (Returned (0, 0), threeFrequencies) ∧
  ∃ w', scaleCPUFrequency fourCores [f32 5 0] threeFrequencies = (Returned tt, w') ∧
        InfoDecreasing ∈ logged w' ∧
        written w' = written threeFrequencies ++
          ceilingWrites (NumCPU fourCores)
            (Itoa (snd (frequencyRange (capabilityEntries fourCores threeFrequencies)))).
Proof.
  assert (Hshort : (length [f32 5 0] < 2)%nat) by (simpl; lia).
  split; [exact Hshort|].
  exact (proj2 (proj2 (C7_short_series_is_safe fourCores [f32 5 0] threeFrequencies)) Hshort).
Defined.

(** C8. The target is written, as the decimal string that [Atoi] reads back
    to it, to the control file of every core from 0 to [NumCPU - 2] and never
    to that of the last core; the attempts are the same whatever writes fail,
    an accepted write leaves the target in the file, and a refused one is
    logged and changes nothing. *)
Theorem C8_all_cores_but_the_last (host : Host) (prices : list float32) (w : World) :
  ∃ w', scaleCPUFrequency host prices w = (Returned tt, w') ∧
    let target := chosenTarget host prices w in
    written w' = written w ++ ceilingWrites (NumCPU host) (Itoa target) ∧
    Atoi (Itoa target) = Some target ∧
    (∀ p d, (p, d) ∈ ceilingWrites (NumCPU host) (Itoa target) ↔
            d = Itoa target ∧ ∃ i, 0 ≤ i ≤ NumCPU host - 2 ∧ p = scalingMaxFreqFile i) ∧
    (∀ i d, NumCPU host - 1 ≤ i →
            ((scalingMaxFreqFile i, d) ∉ ceilingWrites (NumCPU host) (Itoa target)) ∧
            files w' !! scalingMaxFreqFile i = files w !! scalingMaxFreqFile i) ∧
    (∀ i, 0 ≤ i ≤ NumCPU host - 2 →
          if Writable host (scalingMaxFreqFile i) (Itoa target)
          then files w' !! scalingMaxFreqFile i = Some (Itoa target) ∧
               InfoScaling i target ∈ logged w'
          else files w' !! scalingMaxFreqFile i = files w !! scalingMaxFreqFile i ∧
               ErrWriting (Itoa target) (scalingMaxFreqFile i) ∈ logged w' ∧
               InfoNotScaling i target ∈ logged w').
Proof.
  eexists. split; [apply scaleCPUFrequency_spec|].
  intros target.
  set (w0 := addLogged _ (afterDiscovery host w)).
  assert (Hfiles : files w0 = files w)
    by (subst w0; cbn; apply afterDiscovery_frame).
  assert (Hwritten : written w0 = written w)
    by (subst w0; cbn; apply afterDiscovery_frame).
  split; [rewrite coreSteps_written, Hwritten; reflexivity|].
  split; [apply Atoi_Itoa, chosenTarget_in_int64|].
  split; [intros p d; apply ceilingWrites_elem|].
  split.
  - intros i d Hlast. split.
    + rewrite ceilingWrites_elem. intros (_ & j & Hj & Heq).
      apply scalingMaxFreqFile_inj in Heq. lia.
    + rewrite coreSteps_frame, Hfiles; [reflexivity|].
      intros j Hj%elem_of_seqZ Heq. apply scalingMaxFreqFile_inj in Heq. lia.
  - intros i Hi.
    assert (Hin : i ∈ seqZ 0 (NumCPU host - 1)) by (apply elem_of_seqZ; lia).
    pose proof (proj2 (coreSteps_logged host target (seqZ 0 (NumCPU host - 1)) w0) i Hin)
      as Hlog.
    destruct (Writable host (scalingMaxFreqFile i) (Itoa target)) eqn:Hok.
    + split; [apply coreSteps_accepted; assumption|exact Hlog].
    + split; [rewrite coreSteps_refused, Hfiles by exact Hok; reflexivity|exact Hlog].
Qed.

Lemma C8_all_cores_but_the_last_witness :
  ∃ w', scaleCPUFrequency fourCores [f32 5 0; f32 4 0] threeFrequencies = (Returned tt, w') ∧
        written w' = [(scalingMaxFreqFile 0, "1600000"); (scalingMaxFreqFile 1, "1600000");
                      (scalingMaxFreqFile 2, "1600000")] ∧
        files w' !! scalingMaxFreqFile 0 = Some "1600000" ∧
        files w' !! scalingMaxFreqFile 1 = None ∧
        InfoNotScaling 1 1600000 ∈ logged w' ∧
        files w' !! scalingMaxFreqFile 2 = Some "1600000" ∧
        files w' !! scalingMaxFreqFile 3 = None.
Proof.
  destruct (C8_all_cores_but_the_last fourCores [f32 5 0; f32 4 0] threeFrequencies)
    as (w' & Hrun & Hwritten & _ & _ & Hlast & Hcores).
  exists w'. split; [exact Hrun|]. split; [exact Hwritten|].
  assert (H0 : 0 ≤ 0 ≤ NumCPU fourCores - 2) by (cbn; lia).
  assert (H1 : 0 ≤ 1 ≤ NumCPU fourCores - 2) by (cbn; lia).
  assert (H2 : 0 ≤ 2 ≤ NumCPU fourCores - 2) by (cbn; lia).
  assert (H3 : NumCPU fourCores - 1 ≤ 3) by (cbn; lia).
  split; [exact (proj1 (Hcores 0 H0))|].
  split; [exact (proj1 (Hcores 1 H1))|].
  split; [exact (proj2 (proj2 (Hcores 1 H1)))|].
  split; [exact (proj1 (Hcores 2 H2))|].
  exact (proj2 (Hlast 3 "" H3)).
Defined.

(** C10. When no entry of the capability file parses (unreadable or empty
    file included), the scaler writes "0" to every targeted core if the
    series is not increasing-dominant and "10000000" if it is; nothing guards
    these writes. *)
Theorem C10_sentinels_are_written (host : Host) (prices : list float32) (w : World) :
  (∀ entry, entry ∈ capabilityEntries host w → Atoi entry = None) →
  ∃ w', scaleCPUFrequency host prices w = (Returned tt, w') ∧
        written w' = written w ++
          ceilingWrites (NumCPU host)
            (if decreases prices <? increases prices then "10000000" else "0").
Proof.
  intros Hnone.
  destruct (scaleCPUFrequency_written host prices w) as (w' & Hrun & Hwritten & _).
  exists w'. split; [exact Hrun|]. rewrite Hwritten. f_equal. f_equal.
  unfold chosenTarget, frequencyRange.
  rewrite frequencyRange_from, (parsedEntries_nil _ Hnone). cbn [fold_left].
  destruct (decreases prices <? increases prices); reflexivity.
Qed.

Lemma C10_sentinels_are_written_witness :
  ∃ w', scaleCPUFrequency fourCores [f32 1 0; f32 2 0] blank = (Returned tt, w') ∧
        written w' =
          [(scalingMaxFreqFile 0, "10000000"); (scalingMaxFreqFile 1, "10000000");
           (scalingMaxFreqFile 2, "10000000")].
Proof.
  apply (C10_sentinels_are_written fourCores [f32 1 0; f32 2 0] blank).
  intros entry Hentry. vm_compute in Hentry. inversion Hentry.
Defined.

Example scaleCPUFrequency_fourCores :
  let w' := snd (scaleCPUFrequency fourCores [f32 5 0; f32 4 0; f32 6 0] threeFrequencies) in
  written w' = [(scalingMaxFreqFile 0, "1600000"); (scalingMaxFreqFile 1, "1600000");
                (scalingMaxFreqFile 2, "1600000")] ∧
  files w' !! scalingMaxFreqFile 0 = Some "1600000" ∧
  files w' !! scalingMaxFreqFile 1 = None ∧
  files w' !! scalingMaxFreqFile 2 = Some "1600000" ∧
  files w' !! scalingMaxFreqFile 3 = None ∧
  logged w' = [InfoDecreasing; InfoScaling 0 1600000;
               ErrWriting "1600000" (scalingMaxFreqFile 1); InfoNotScaling 1 1600000;
               InfoScaling 2 1600000].
Proof. vm_compute. repeat split. Qed.

(** *** Claims about frequency discovery *)

(** C5, as the code has it.  The range is the fold of min from 10000000 and of
    max from 0 over the entries that parse, the others being skipped.  With
    some entry parsed, min <= max; min is one of the parsed entries as soon as
    one of them is at most 10000000, and max as soon as one of them is at
    least 0.  With no entry parsed (unreadable or empty file included) min
    stays 10000000 and max stays 0.  The content "800000 1200000 1600000"
    gives min 800000 and max 1600000. *)
Theorem C5_frequency_range :
  (∀ frequencies : list string,
     let parsed := parsedEntries frequencies in
     let minF := fst (frequencyRange frequencies) in
     let maxF := snd (frequencyRange frequencies) in
     minF = fold_left Z.min parsed 10000000 ∧
     maxF = fold_left Z.max parsed 0 ∧
     (parsed ≠ [] → minF ≤ maxF) ∧
     ((∃ f, f ∈ parsed ∧ f ≤ 10000000) → minF ∈ parsed) ∧
     ((∃ f, f ∈ parsed ∧ 0 ≤ f) → maxF ∈ parsed) ∧
     (parsed = [] → minF = 10000000 ∧ maxF = 0)) ∧
  (∀ (host : Host) (w : World),
     files w !! scalingAvailableFrequenciesFile = None ∨
     Readable host scalingAvailableFrequenciesFile = false ∨
     files w !! scalingAvailableFrequenciesFile = Some "" →
     ∃ w', getAvailableCPUFrequencies host scalingAvailableFrequenciesFile w
           = (Returned [], w') ∧
           frequencyRange [] = (10000000, 0)) ∧
  frequencyRange (Split "800000 1200000 1600000" " ") = (800000, 1600000).
Proof.
  split; [|split; [|reflexivity]].
  - intros frequencies parsed minF maxF. subst minF maxF.
    unfold frequencyRange. rewrite frequencyRange_from. fold parsed. cbn [fst snd].
    split; [reflexivity|]. split; [reflexivity|].
    destruct (fold_min_le parsed 10000000) as [Hmin_start Hmin_elem].
    destruct (fold_max_ge parsed 0) as [Hmax_start Hmax_elem].
    split; [|split; [|split]].
    + intros Hsome. destruct parsed as [|f rest] eqn:Hparsed; [congruence|].
      assert (Hf : f ∈ f :: rest) by left.
      specialize (Hmin_elem f Hf). specialize (Hmax_elem f Hf). lia.
    + intros (f & Hf & Hle). exact (fold_min_drawn parsed 10000000 f Hf Hle).
    + intros (f & Hf & Hle). exact (fold_max_drawn parsed 0 f Hf Hle).
    + intros ->. split; reflexivity.
  - intros host w Hdegenerate. eexists.
    split; [|reflexivity].
    rewrite getAvailableCPUFrequencies_spec. f_equal. f_equal.
    unfold capabilityEntries.
    destruct Hdegenerate as [->|[Hunreadable| ->]]; [reflexivity| |].
    + rewrite Hunreadable. destruct (files w !! _); reflexivity.
    + destruct (Readable host _); reflexivity.
Qed.

Lemma C5_frequency_range_witness :
  let frequencies := Split "800000 1200000 1600000" " " in
  fst (frequencyRange frequencies) ≤ snd (frequencyRange frequencies) ∧
  fst (frequencyRange frequencies) ∈ parsedEntries frequencies ∧
  snd (frequencyRange frequencies) ∈ parsedEntries frequencies.
Proof.
  intros frequencies.
  destruct (proj1 C5_frequency_range frequencies)
    as (_ & _ & Hordered & Hmin & Hmax & _).
  assert (Hentry : 800000 ∈ parsedEntries frequencies) by left.
  split; [apply Hordered; discriminate|].
  split; [apply Hmin|apply Hmax]; exists 800000; (split; [exact Hentry|lia]).
Defined.

(** The file as sysfs prints it, every entry followed by a space and a final
    newline: the last piece does not parse and is skipped. *)
Example frequencyRange_sysfs :
  frequencyRange (Split ("3600000 2800000 1200000 " +:+ nl) " ") = (1200000, 3600000).
Proof. vm_compute. reflexivity. Qed.

(** C5 as stated fails: a capability file whose only entry is 20000000 leaves
    min at 10000000, which is not an entry of the file; and a readable,
    non-empty file with no integer in it leaves min above max. *)
Lemma C5_range_outside_the_entries :
  (frequencyRange (Split "20000000" " ") = (10000000, 20000000) ∧
   parsedEntries (Split "20000000" " ") = [20000000] ∧
   10000000 ∉ parsedEntries (Split "20000000" " ")) ∧
  (frequencyRange (Split "n/a" " ") = (10000000, 0) ∧ ¬ (10000000 ≤ 0)).
Proof.
  split; [split; [reflexivity|split; [reflexivity|]]|split; [reflexivity|lia]].
  intros Hin. vm_compute in Hin.
  apply elem_of_cons in Hin as [Heq|Hin]; [discriminate Heq|inversion Hin].
Qed.

(** *** The market data client *)

Lemma appendLog_nil (w : World) : appendLog [] w = w.
Proof. destruct w. unfold appendLog. cbn. rewrite app_nil_r. reflexivity. Qed.

Lemma appendLog_addLogged (e : Event) (es : list Event) (w : World) :
  appendLog es (addLogged e w) = appendLog (e :: es) w.
Proof. unfold appendLog, addLogged. cbn. rewrite <- app_assoc. reflexivity. Qed.

Lemma sendRequest_spec (host : Host) (soapAction payload : string) (w : World) :
  let req := {| reqURL := wsdlService w; reqContentType := "text/xml";
                reqSOAPAction := soapAction; reqPayload := payload |} in
  sendRequest host soapAction payload w =
  (Returned (if NewRequest host (wsdlService w) then
               match Do host (sent w) req with
               | Some res => if String.eqb (Status res) "200 OK" then Some res else None
               | None => None
               end
             else None),
   afterSend host req w).
Proof.
  intros req. unfold sendRequest, afterSend. unfold_run. cbn.
  fold req.
  destruct (NewRequest host (wsdlService w)); cbn; [|reflexivity].
  destruct (Do host (sent w) req) as [res|]; cbn; [|reflexivity].
  destruct (String.eqb (Status res) "200 OK"); reflexivity.
Qed.

Lemma GetImPriceE_spec (host : Host) (f : Fetch) (w : World) :
  GetImPriceE host (fetchStartDate f) (fetchEndDate f) (fetchStartHour f) (fetchEndHour f) w =
  (Returned (fetchResponse host (wsdlService w) (sent w) f),
   afterSend host (imPriceRequest (wsdlService w) f) (addFetched f w)).
Proof.
  unfold GetImPriceE, bind at 1, modify.
  unfold bind. rewrite sendRequest_spec. cbn [wsdlService sent addFetched].
  unfold fetchResponse, imPriceRequest. destruct f as [sd ed sh eh]; cbn.
  destruct (NewRequest host (wsdlService w)); [|reflexivity].
  match goal with |- context [Do host ?b ?r] => destruct (Do host b r) as [res|] end;
    [|reflexivity].
  destruct (String.eqb (Status res) "200 OK"); reflexivity.
Qed.

Lemma afterSend_frame (host : Host) (req : Request) (w : World) :
  wsdlService (afterSend host req w) = wsdlService w ∧
  fetched (afterSend host req w) = fetched w ∧
  files (afterSend host req w) = files w ∧
  written (afterSend host req w) = written w ∧
  (∀ e, e ∈ logged w → e ∈ logged (afterSend host req w)).
Proof.
  unfold afterSend.
  destruct (NewRequest host (wsdlService w));
    [destruct (Do host (sent w) req) as [res|];
     [destruct (String.eqb (Status res) "200 OK")|]|];
    cbn; repeat split; try reflexivity; intros e He; rewrite ?elem_of_app; auto.
Qed.

(** A fetch that obtains a response has dispatched exactly its request. *)
Lemma afterSend_sent (host : Host) (f : Fetch) (w : World) (res : Response) :
  fetchResponse host (wsdlService w) (sent w) f = Some res →
  sent (afterSend host (imPriceRequest (wsdlService w) f) (addFetched f w)) =
  sent w ++ [imPriceRequest (wsdlService w) f].
Proof.
  unfold fetchResponse, afterSend. cbn [wsdlService sent addFetched].
  destruct (NewRequest host (wsdlService w)); [|discriminate].
  destruct (Do host (sent w) (imPriceRequest (wsdlService w) f)) as [res'|]; [|discriminate].
  destruct (String.eqb (Status res') "200 OK"); [reflexivity|discriminate].
Qed.

Lemma extract_loop (items : list Item) (acc : list float32) (w : World) :
  forEach items
    (λ s prices,
       logEvent (InfoItem (itemDate s) (itemHour s) (itemPrice s) (itemVolume s));;;
       ret (prices ++ [itemPrice s])) acc w =
  (Returned (acc ++ (itemPrice <$> items)),
   appendLog ((λ s, InfoItem (itemDate s) (itemHour s) (itemPrice s) (itemVolume s))
                <$> items) w).
Proof.
  revert acc w. induction items as [|s items IH]; intros acc w; cbn [forEach fmap list_fmap].
  - unfold ret. rewrite app_nil_r, appendLog_nil. reflexivity.
  - unfold bind at 1. unfold bind at 1. unfold logEvent, modify, ret at 1.
    rewrite IH, appendLog_addLogged, <- app_assoc. reflexivity.
Qed.

Lemma extractPricesFromGetImPriceE_spec (res : Response) (w : World) :
  extractPricesFromGetImPriceE res w =
  (Returned (pricesOf res, decodeFails res), appendLog (extractLog res) w).
Proof.
  unfold extractPricesFromGetImPriceE, pricesOf, extractLog, decodeFails.
  destruct (Decode (Body res)) as [items err]. cbn [fst snd].
  destruct err.
  - unfold_run. reflexivity.
  - unfold bind. rewrite extract_loop. reflexivity.
Qed.

Lemma decodeItem_failsCoercion (r : RawItem) : failsCoercion r → decodeItem r = None.
Proof.
  unfold failsCoercion, decodeItem.
  intros [[t ->]|[[t Hp]|[t Hv]]]; [reflexivity| |].
  - rewrite Hp. destruct (rawHour r); reflexivity.
  - rewrite Hv. destruct (rawHour r), (rawPrice r); reflexivity.
Qed.

(** One record that does not coerce fails the decoding of all of them. *)
Lemma decodeItems_fails (raws : list RawItem) (r : RawItem) :
  r ∈ raws → decodeItem r = None → snd (decodeItems raws) = true.
Proof.
  induction raws as [|r' raws IH]; intros Hin Hnone; [inversion Hin|].
  cbn [decodeItems]. apply elem_of_cons in Hin as [<-|Hin].
  - rewrite Hnone. reflexivity.
  - destruct (decodeItem r'); [|reflexivity].
    specialize (IH Hin Hnone). destruct (decodeItems raws). exact IH.
Qed.

(** A response whose records all coerce yields one price per record, in
    document order. *)
Lemma decodeItems_all (raws : list RawItem) (items : list Item) :
  Forall2 (λ r it, decodeItem r = Some it) raws items →
  decodeItems raws = (items, false).
Proof.
  induction 1 as [|r it raws items Hr _ IH]; [reflexivity|].
  cbn [decodeItems]. rewrite Hr, IH. reflexivity.
Qed.

Lemma pricesOf_all (res : Response) (raws : list RawItem) (items : list Item) :
  Body res = Envelope raws →
  Forall2 (λ r it, decodeItem r = Some it) raws items →
  pricesOf res = itemPrice <$> items ∧ length (pricesOf res) = length raws.
Proof.
  intros Hbody Hall. unfold pricesOf, decodeFails.
  rewrite Hbody. cbn [Decode]. rewrite (decodeItems_all raws items Hall). cbn [fst snd].
  split; [reflexivity|]. rewrite length_fmap. symmetry. exact (Forall2_length _ _ _ Hall).
Qed.

(** *** The request body *)

Lemma string_app_assoc (s t u : string) : (s +:+ t) +:+ u = s +:+ (t +:+ u).
Proof.
  induction s as [|c s IH]; [reflexivity|].
  change (String c ((s +:+ t) +:+ u) = String c (s +:+ (t +:+ u))). rewrite IH. reflexivity.
Qed.

Lemma string_app_nil_r (s : string) : s +:+ "" = s.
Proof.
  induction s as [|c s IH]; [reflexivity|].
  change (String c (s +:+ "") = String c s). rewrite IH. reflexivity.
Qed.

Lemma string_rev_app_spec (s t : string) : String.rev_app s t = String.rev s +:+ t.
Proof.
  revert t. induction s as [|c s IH]; intros t; [reflexivity|].
  change (String.rev_app s (String c t) = String.rev_app s (String c "") +:+ t).
  rewrite (IH (String c "")), IH, string_app_assoc. reflexivity.
Qed.

Lemma string_rev_app (s t : string) :
  String.rev (s +:+ t) = String.rev t +:+ String.rev s.
Proof.
  induction s as [|c s IH].
  - change (String.rev t = String.rev t +:+ ""). rewrite string_app_nil_r. reflexivity.
  - change (String.rev (String c s +:+ t)) with (String.rev_app (s +:+ t) (String c "")).
    change (String.rev (String c s)) with (String.rev_app s (String c "")).
    rewrite !string_rev_app_spec, IH, string_app_assoc. reflexivity.
Qed.

Lemma string_rev_involutive (s : string) : String.rev (String.rev s) = s.
Proof.
  induction s as [|c s IH]; [reflexivity|].
  change (String.rev (String c s)) with (String.rev_app s (String c "")).
  rewrite string_rev_app_spec, string_rev_app, IH. reflexivity.
Qed.

Lemma TrimLeft_cons (c : ascii) (s : string) :
  TrimLeft (String c s) = if isSpace c then TrimLeft s else String c s.
Proof. reflexivity. Qed.

(** Text that neither begins nor ends with white space is what [TrimSpace]
    leaves of it after a newline and a tab. *)
Lemma TrimSpace_envelope (body : string) (c c' : ascii) (r r' : string) :
  body = String c r → isSpace c = false →
  String.rev body = String c' r' → isSpace c' = false →
  TrimSpace (nl +:+ tab +:+ body) = body.
Proof.
  intros Hhead Hc Hlast Hc'. unfold TrimSpace.
  assert (Hleft : TrimLeft (nl +:+ tab +:+ body) = body).
  { rewrite Hhead.
    change (nl +:+ tab +:+ String c r) with (String "010" (String "009" (String c r))).
    rewrite !TrimLeft_cons, Hc. reflexivity. }
  rewrite Hleft, Hlast, TrimLeft_cons, Hc', <- Hlast.
  apply string_rev_involutive.
Qed.

(** The body of the request is the envelope of the source without its first
    newline and tab, whatever the four arguments are. *)
Lemma payload_is_the_envelope (startDate endDate startHour endHour : string) :
  nl +:+ tab +:+ TrimSpace (imPriceEnvelope startDate endDate startHour endHour) =
  imPriceEnvelope startDate endDate startHour endHour.
Proof.
  unfold imPriceEnvelope.
  match goal with |- _ = nl +:+ tab +:+ ?b => set (body := b) end.
  assert (Hhead : ∃ r, body = String "<" r) by (eexists; reflexivity).
  assert (Hlast : ∃ r', String.rev body = String ">" r').
  { subst body. rewrite !string_rev_app. eexists. reflexivity. }
  destruct Hhead as [r Hhead], Hlast as [r' Hlast].
  rewrite (TrimSpace_envelope body "<" ">" r r' Hhead eq_refl Hlast eq_refl).
  reflexivity.
Qed.

(** *** The price fetch orchestrator *)

Lemma bind_returned {A B} (m : Run A) (k : A → Run B) (w w' : World) (a : A) :
  m w = (Returned a, w') → bind m k w = k a w'.
Proof. intros Hm. unfold bind. rewrite Hm. reflexivity. Qed.

Lemma eqb_dates (times : Times) :
  startDate times ≠ endDate times →
  String.eqb (startDate times) (endDate times) = false.
Proof. intros Hne. apply String.eqb_neq. exact Hne. Qed.

(** The window within one day: one fetch, and its prices or none. *)
Lemma getElectrictyPrices_one_day (host : Host) (times : Times) (w : World) :
  startDate times = endDate times →
  ∃ prices w',
    getElectrictyPrices host times w = (Returned prices, w') ∧
    fetched w' = fetched w ++ [wholeWindow times] ∧
    match fetchResponse host (wsdlService w) (sent w) (wholeWindow times) with
    | None => prices = [] ∧ ErrHTTPExiting ∈ logged w'
    | Some res =>
        if decodeFails res then prices = [] ∧ ErrTodayExiting ∈ logged w'
        else prices = pricesOf res
    end.
Proof.
  intros Hsame. unfold getElectrictyPrices.
  rewrite (bind_returned _ _ w (addLogged InfoFunctionCall w) tt) by reflexivity.
  apply String.eqb_eq in Hsame. rewrite Hsame. cbn [negb].
  set (w0 := addLogged InfoFunctionCall w).
  rewrite (bind_returned _ _ _ _ _ (GetImPriceE_spec host (wholeWindow times) w0)).
  change (wsdlService w0) with (wsdlService w). change (sent w0) with (sent w).
  set (w1 := afterSend host _ _).
  assert (Hfetched : fetched w1 = fetched w ++ [wholeWindow times]).
  { subst w1. destruct (afterSend_frame host (imPriceRequest (wsdlService w) (wholeWindow times))
                          (addFetched (wholeWindow times) w0)) as (_ & -> & _). reflexivity. }
  destruct (fetchResponse host (wsdlService w) (sent w) (wholeWindow times)) as [res|].
  - rewrite (bind_returned _ _ _ _ _ (extractPricesFromGetImPriceE_spec res w1)).
    cbn beta iota. unfold pricesOf.
    destruct (decodeFails res); unfold_run; do 2 eexists;
      (split; [reflexivity|]); cbn [fetched logged addLogged appendLog];
      (split; [exact Hfetched|]); [|reflexivity].
    split; [reflexivity|]. rewrite elem_of_app. right. left.
  - unfold_run. do 2 eexists. split; [reflexivity|].
    cbn [fetched logged addLogged]. split; [exact Hfetched|].
    split; [reflexivity|]. rewrite elem_of_app. right. left.
Qed.

(** The window across midnight: the earlier day is fetched; without a response
    the orchestrator stops there, and with one it fetches the later day,
    whether or not the earlier day decoded. *)
Lemma getElectrictyPrices_two_days (host : Host) (times : Times) (w : World) :
  startDate times ≠ endDate times →
  ∃ prices w',
    getElectrictyPrices host times w = (Returned prices, w') ∧
    match fetchResponse host (wsdlService w) (sent w) (earlierDay times) with
    | None =>
        prices = [] ∧ fetched w' = fetched w ++ [earlierDay times] ∧
        ErrHTTPExiting ∈ logged w'
    | Some res1 =>
        fetched w' = fetched w ++ [earlierDay times; laterDay times] ∧
        (decodeFails res1 = true → InfoPreviousDayContinuing ∈ logged w') ∧
        match fetchResponse host (wsdlService w)
                (sent w ++ [imPriceRequest (wsdlService w) (earlierDay times)])
                (laterDay times) with
        | None => prices = [] ∧ ErrHTTPExiting ∈ logged w'
        | Some res2 =>
            if decodeFails res2 then prices = [] ∧ ErrThisDayExiting ∈ logged w'
            else prices = pricesOf res1 ++ pricesOf res2
        end
    end.
Proof.
  intros Hne. unfold getElectrictyPrices.
  rewrite (bind_returned _ _ w (addLogged InfoFunctionCall w) tt) by reflexivity.
  rewrite (eqb_dates times Hne). cbn [negb].
  set (w0 := addLogged InfoFunctionCall w).
  rewrite (bind_returned _ _ _ _ _ (GetImPriceE_spec host (earlierDay times) w0)).
  change (wsdlService w0) with (wsdlService w). change (sent w0) with (sent w).
  set (req1 := imPriceRequest (wsdlService w) (earlierDay times)).
  set (w1 := afterSend host req1 (addFetched (earlierDay times) w0)).
  destruct (afterSend_frame host req1 (addFetched (earlierDay times) w0))
    as (Hurl1 & Hfetched1 & _ & _ & Hlog1).
  fold w1 in Hurl1, Hfetched1, Hlog1. cbn [wsdlService fetched addFetched] in Hurl1, Hfetched1.
  change (wsdlService w0) with (wsdlService w) in Hurl1.
  change (fetched w0) with (fetched w) in Hfetched1.
  destruct (fetchResponse host (wsdlService w) (sent w) (earlierDay times)) as [res1|] eqn:Hres1.
  2: { unfold_run. do 2 eexists. split; [reflexivity|].
       cbn [fetched logged addLogged]. split; [reflexivity|]. split; [exact Hfetched1|].
       rewrite elem_of_app. right. left. }
  assert (Hsent1 : sent w1 = sent w ++ [req1]).
  { subst w1 req1. change (wsdlService w) with (wsdlService w0).
    change (sent w) with (sent w0). apply (afterSend_sent host _ w0 res1). exact Hres1. }
  rewrite (bind_returned _ _ _ _ _ (extractPricesFromGetImPriceE_spec res1 w1)).
  cbn beta iota.
  set (w2 := appendLog (extractLog res1) w1).
  set (w3 := if decodeFails res1 then addLogged InfoPreviousDayContinuing w2 else w2).
  rewrite (bind_returned _ _ w2 w3 tt)
    by (subst w3; destruct (decodeFails res1); reflexivity).
  assert (Hw3 : wsdlService w3 = wsdlService w ∧ sent w3 = sent w ++ [req1] ∧
                fetched w3 = fetched w ++ [earlierDay times] ∧
                (decodeFails res1 = true → InfoPreviousDayContinuing ∈ logged w3)).
  { subst w3 w2. destruct (decodeFails res1);
      cbn [wsdlService sent fetched logged addLogged appendLog];
      (split; [exact Hurl1|]); (split; [exact Hsent1|]); (split; [exact Hfetched1|]).
    - intros _. rewrite elem_of_app. right. left.
    - discriminate. }
  destruct Hw3 as (Hurl3 & Hsent3 & Hfetched3 & Hlog3).
  rewrite (bind_returned _ _ _ _ _ (GetImPriceE_spec host (laterDay times) w3)).
  rewrite Hurl3, Hsent3.
  set (req2 := imPriceRequest (wsdlService w) (laterDay times)).
  set (w4 := afterSend host req2 (addFetched (laterDay times) w3)).
  destruct (afterSend_frame host req2 (addFetched (laterDay times) w3))
    as (_ & Hfetched4 & _ & _ & Hlog4).
  fold w4 in Hfetched4, Hlog4. cbn [fetched logged addFetched] in Hfetched4, Hlog4.
  rewrite Hfetched3, <- app_assoc in Hfetched4. cbn [app] in Hfetched4.
  destruct (fetchResponse host (wsdlService w) (sent w ++ [req1]) (laterDay times))
    as [res2|].
  - rewrite (bind_returned _ _ _ _ _ (extractPricesFromGetImPriceE_spec res2 w4)).
    cbn beta iota.
    destruct (decodeFails res2); unfold_run; do 2 eexists;
      (split; [reflexivity|]); cbn [fetched logged addLogged appendLog];
      (split; [exact Hfetched4|]);
      (split; [intros Hfails; rewrite ?elem_of_app; auto 6|]).
    + split; [reflexivity|]. rewrite elem_of_app. right. left.
    + reflexivity.
  - unfold_run. do 2 eexists. split; [reflexivity|].
    cbn [fetched logged addLogged]. split; [exact Hfetched4|].
    split; [intros Hfails; rewrite ?elem_of_app; auto 6|].
    split; [reflexivity|]. rewrite elem_of_app. right. left.
Qed.

(** *** Claims about the orchestrator *)

(** C3 as stated fails: over midnight, with the service unreachable for the
    first sub-fetch and answering afterwards, the orchestrator does not
    proceed to the second sub-fetch; it returns the empty series. *)
Lemma C3_unanswered_first_fetch_aborts :
  let run := getElectrictyPrices (serving None) overMidnight blank in
  fst run = Returned [] ∧
  fetched (snd run) = [earlierDay overMidnight] ∧
  logged (snd run) = [InfoFunctionCall; ErrDispatchingRequest; ErrHTTPExiting] ∧
  fetchResponse (serving None) "" (sent (snd run)) (laterDay overMidnight)
  = Some (answer "200 OK" laterDayQuotations).
Proof. vm_compute. repeat split. Qed.

(** C3, as the code has it.  Over midnight: when the first sub-fetch obtains a
    response that fails to decode, the orchestrator logs it and proceeds to
    the second sub-fetch, whose prices it returns; when the first sub-fetch
    obtains no response, it stops and returns the empty series; when the
    second sub-fetch fails (no response, or a response that fails to decode),
    it returns the empty series.  Within one day: when the fetch fails, it
    returns the empty series. *)
Theorem C3_partial_failure_policy (host : Host) (times : Times) (w : World) :
  ∃ prices w',
    getElectrictyPrices host times w = (Returned prices, w') ∧
    let url := wsdlService w in
    let afterFirst := sent w ++ [imPriceRequest url (earlierDay times)] in
    (startDate times ≠ endDate times →
     (∀ res1,
        fetchResponse host url (sent w) (earlierDay times) = Some res1 →
        decodeFails res1 = true →
        InfoPreviousDayContinuing ∈ logged w' ∧
        fetched w' = fetched w ++ [earlierDay times; laterDay times] ∧
        ∀ res2,
          fetchResponse host url afterFirst (laterDay times) = Some res2 →
          decodeFails res2 = false → prices = pricesOf res2) ∧
     (fetchResponse host url (sent w) (earlierDay times) = None →
      prices = [] ∧ fetched w' = fetched w ++ [earlierDay times]) ∧
     (fetchResponse host url (sent w) (earlierDay times) ≠ None →
      fetchResponse host url afterFirst (laterDay times) = None ∨
      (∃ res2, fetchResponse host url afterFirst (laterDay times) = Some res2 ∧
               decodeFails res2 = true) →
      prices = [])) ∧
    (startDate times = endDate times →
     fetchResponse host url (sent w) (wholeWindow times) = None ∨
     (∃ res, fetchResponse host url (sent w) (wholeWindow times) = Some res ∧
             decodeFails res = true) →
     prices = []).
Proof.
  destruct (decide (startDate times = endDate times)) as [Hsame|Hne].
  - destruct (getElectrictyPrices_one_day host times w Hsame)
      as (prices & w' & Hrun & _ & Hcases).
    exists prices, w'. split; [exact Hrun|]. intros url afterFirst.
    split; [intros Hne; contradiction|]. intros _ Hfails. subst url.
    destruct Hfails as [Hnone|(res & Hsome & Hdecode)].
    + rewrite Hnone in Hcases. apply Hcases.
    + rewrite Hsome, Hdecode in Hcases. apply Hcases.
  - destruct (getElectrictyPrices_two_days host times w Hne)
      as (prices & w' & Hrun & Hcases).
    exists prices, w'. split; [exact Hrun|]. intros url afterFirst.
    split; [|intros Hsame; contradiction]. intros _. subst url afterFirst.
    destruct (fetchResponse host (wsdlService w) (sent w) (earlierDay times)) as [res1|].
    + destruct Hcases as (Hfetched & Hlog & Hsecond).
      split; [|split; [discriminate|]].
      * intros ? [= <-] Hdecode. split; [auto|]. split; [exact Hfetched|].
        intros res2 Hsome Hdecode2. rewrite Hsome, Hdecode2 in Hsecond.
        rewrite Hsecond. unfold pricesOf at 1. rewrite Hdecode. reflexivity.
      * intros _ [Hnone|(res2 & Hsome & Hdecode2)].
        -- rewrite Hnone in Hsecond. apply Hsecond.
        -- rewrite Hsome, Hdecode2 in Hsecond. apply Hsecond.
    + destruct Hcases as (Hprices & Hfetched & _).
      split; [discriminate|]. split; [auto|]. intros Hsome. contradiction.
Qed.

Lemma C3_partial_failure_policy_witness :
  ∃ prices w',
    getElectrictyPrices (serving (Some (answer "200 OK" [garbledItem]))) overMidnight blank
    = (Returned prices, w') ∧
    InfoPreviousDayContinuing ∈ logged w' ∧
    fetched w' = [earlierDay overMidnight; laterDay overMidnight] ∧
    prices = [f32 5 0; f32 6 0].
Proof.
  destruct (C3_partial_failure_policy
              (serving (Some (answer "200 OK" [garbledItem]))) overMidnight blank)
    as (prices & w' & Hrun & Hpolicy).
  exists prices, w'. split; [exact Hrun|].
  assert (Hne : startDate overMidnight ≠ endDate overMidnight) by discriminate.
  destruct (proj1 Hpolicy Hne) as (Hgarbled & _).
  destruct (Hgarbled (answer "200 OK" [garbledItem]) eq_refl eq_refl)
    as (Hlog & Hfetched & Hsecond).
  split; [exact Hlog|]. split; [exact Hfetched|].
  exact (Hsecond (answer "200 OK" laterDayQuotations) eq_refl eq_refl).
Defined.

(** C4 as stated fails: over midnight, when the service refuses the first
    request, one fetch is issued, not two. *)
Lemma C4_refused_first_fetch_is_the_only_one :
  let host := serving (Some (answer "503 Service Unavailable" [])) in
  let run := getElectrictyPrices host overMidnight blank in
  startDate overMidnight ≠ endDate overMidnight ∧
  fst run = Returned [] ∧
  fetched (snd run) = [earlierDay overMidnight] ∧
  length (fetched (snd run)) = 1%nat.
Proof. vm_compute. repeat split. discriminate. Qed.

(** C4, as the code has it.  Within one day exactly one fetch is issued, for
    (startDate, endDate, startHour, endHour).  Over midnight the fetch
    (startDate, startDate, startHour, "24") is issued first; when it obtains a
    response, exactly one more follows, (endDate, endDate, "0", endHour), and
    when that one obtains a response that decodes, the series returned is the
    prices decoded from the first response followed by those of the second;
    when the first fetch obtains no response, it is the only fetch. *)
Theorem C4_fetches_and_concatenation (host : Host) (times : Times) (w : World) :
  ∃ prices w',
    getElectrictyPrices host times w = (Returned prices, w') ∧
    let url := wsdlService w in
    let afterFirst := sent w ++ [imPriceRequest url (earlierDay times)] in
    (startDate times = endDate times →
     fetched w' = fetched w ++
       [{| fetchStartDate := startDate times; fetchEndDate := endDate times;
           fetchStartHour := startHour times; fetchEndHour := endHour times |}]) ∧
    (startDate times ≠ endDate times →
     match fetchResponse host url (sent w) (earlierDay times) with
     | Some res1 =>
         fetched w' = fetched w ++
           [{| fetchStartDate := startDate times; fetchEndDate := startDate times;
               fetchStartHour := startHour times; fetchEndHour := "24" |};
            {| fetchStartDate := endDate times; fetchEndDate := endDate times;
               fetchStartHour := "0"; fetchEndHour := endHour times |}] ∧
         ∀ res2,
           fetchResponse host url afterFirst (laterDay times) = Some res2 →
           decodeFails res2 = false →
           prices = pricesOf res1 ++ pricesOf res2
     | None =>
         fetched w' = fetched w ++
           [{| fetchStartDate := startDate times; fetchEndDate := startDate times;
               fetchStartHour := startHour times; fetchEndHour := "24" |}]
     end).
Proof.
  destruct (decide (startDate times = endDate times)) as [Hsame|Hne].
  - destruct (getElectrictyPrices_one_day host times w Hsame)
      as (prices & w' & Hrun & Hfetched & _).
    exists prices, w'. split; [exact Hrun|]. intros url afterFirst.
    split; [intros _; exact Hfetched|intros Hne; contradiction].
  - destruct (getElectrictyPrices_two_days host times w Hne)
      as (prices & w' & Hrun & Hcases).
    exists prices, w'. split; [exact Hrun|]. intros url afterFirst.
    split; [intros Hsame; contradiction|]. intros _. subst url afterFirst.
    destruct (fetchResponse host (wsdlService w) (sent w) (earlierDay times)) as [res1|].
    + destruct Hcases as (Hfetched & _ & Hsecond). split; [exact Hfetched|].
      intros res2 Hsome Hdecode2. rewrite Hsome, Hdecode2 in Hsecond. exact Hsecond.
    + apply Hcases.
Qed.

Lemma C4_fetches_and_concatenation_witness :
  ∃ prices w',
    getElectrictyPrices
      (serving (Some (answer "200 OK" [quotation "2023-12-31" 22 7;
                                       quotation "2023-12-31" 23 4])))
      overMidnight blank = (Returned prices, w') ∧
    fetched w' = [earlierDay overMidnight; laterDay overMidnight] ∧
    prices = [f32 7 0; f32 4 0; f32 5 0; f32 6 0].
Proof.
  destruct (C4_fetches_and_concatenation
              (serving (Some (answer "200 OK" [quotation "2023-12-31" 22 7;
                                               quotation "2023-12-31" 23 4])))
              overMidnight blank)
    as (prices & w' & Hrun & _ & Htwo).
  exists prices, w'. split; [exact Hrun|].
  assert (Hne : startDate overMidnight ≠ endDate overMidnight) by discriminate.
  destruct (Htwo Hne) as (Hfetched & Hprices).
  split; [exact Hfetched|].
  exact (Hprices (answer "200 OK" laterDayQuotations) eq_refl eq_refl).
Defined.

(** *** Claims about the market data client *)

(** C6. A request that cannot be built, a transport failure and any status
    other than "200 OK" make [sendRequest], and with it the fetch, return no
    response, without a panic; and a record with a field that fails its
    coercion makes the extraction return an error and no price at all,
    whatever the other records hold. *)
Theorem C6_failures_report_no_data (host : Host) (w : World) :
  (∀ soapAction payload,
     let req := {| reqURL := wsdlService w; reqContentType := "text/xml";
                   reqSOAPAction := soapAction; reqPayload := payload |} in
     NewRequest host (wsdlService w) = false ∨
     Do host (sent w) req = None ∨
     (∃ res, Do host (sent w) req = Some res ∧ Status res ≠ "200 OK") →
     ∃ w', sendRequest host soapAction payload w = (Returned None, w')) ∧
  (∀ f,
     let req := imPriceRequest (wsdlService w) f in
     NewRequest host (wsdlService w) = false ∨
     Do host (sent w) req = None ∨
     (∃ res, Do host (sent w) req = Some res ∧ Status res ≠ "200 OK") →
     ∃ w', GetImPriceE host (fetchStartDate f) (fetchEndDate f)
             (fetchStartHour f) (fetchEndHour f) w = (Returned None, w')) ∧
  (∀ res raws r,
     Body res = Envelope raws → r ∈ raws → failsCoercion r →
     ∃ w', extractPricesFromGetImPriceE res w = (Returned ([], true), w') ∧
           ErrUnmarshal ∈ logged w').
Proof.
  split; [|split].
  - intros soapAction payload req Hfailure. eexists.
    rewrite sendRequest_spec. fold req. f_equal. f_equal.
    destruct Hfailure as [->|[Hnone|(res & Hsome & Hstatus)]]; [reflexivity| |].
    + rewrite Hnone. destruct (NewRequest host _); reflexivity.
    + rewrite Hsome. apply String.eqb_neq in Hstatus. rewrite Hstatus.
      destruct (NewRequest host _); reflexivity.
  - intros f req Hfailure. eexists.
    rewrite GetImPriceE_spec. f_equal. f_equal. unfold fetchResponse. fold req.
    destruct Hfailure as [->|[Hnone|(res & Hsome & Hstatus)]]; [reflexivity| |].
    + rewrite Hnone. destruct (NewRequest host _); reflexivity.
    + rewrite Hsome. apply String.eqb_neq in Hstatus. rewrite Hstatus.
      destruct (NewRequest host _); reflexivity.
  - intros res raws r Hbody Hin Hfails. eexists.
    rewrite extractPricesFromGetImPriceE_spec.
    assert (Hdecode : decodeFails res = true).
    { unfold decodeFails. rewrite Hbody. cbn [Decode].
      apply (decodeItems_fails raws r Hin). apply decodeItem_failsCoercion. exact Hfails. }
    unfold pricesOf, extractLog. rewrite Hdecode. split; [reflexivity|].
    cbn [logged appendLog]. rewrite elem_of_app. right. left.
Qed.

Lemma C6_failures_report_no_data_witness :
  (∃ w', sendRequest (serving (Some (answer "404 Not Found" []))) "urn:GetImPriceE"
           "<soapenv:Envelope/>" blank = (Returned None, w')) ∧
  (∃ w', extractPricesFromGetImPriceE
           (answer "200 OK" [quotation "2023-12-31" 22 7; garbledItem;
                             quotation "2023-12-31" 23 4]) blank
         = (Returned ([], true), w') ∧
         ErrUnmarshal ∈ logged w').
Proof.
  pose proof (C6_failures_report_no_data (serving (Some (answer "404 Not Found" []))) blank)
    as (Hsend & _ & Hextract).
  split.
  - apply Hsend. right. right. exists (answer "404 Not Found" []).
    split; [reflexivity|discriminate].
  - apply (Hextract (answer "200 OK" [quotation "2023-12-31" 22 7; garbledItem;
                                      quotation "2023-12-31" 23 4])
             [quotation "2023-12-31" 22 7; garbledItem; quotation "2023-12-31" 23 4]
             garbledItem eq_refl).
    + right. left.
    + left. exists "2x". reflexivity.
Defined.

(** *** The time window *)

Lemma getEnvironmentVariables_hours (host : Host) (w : World) :
  ∃ w', getEnvironmentVariables host w = (Returned tt, w') ∧
        hoursInThePast w' =
          (if (String.length (Getenv host "HOURS") =? 0)%nat then -3
           else match ParseDuration host (Getenv host "HOURS") with
                | Some d => d
                | None => -3
                end).
Proof.
  unfold getEnvironmentVariables, bind, modify, logEvent.
  destruct (String.length (Getenv host "HOURS") =? 0)%nat;
    [|destruct (ParseDuration host (Getenv host "HOURS"))];
    cbn; destruct (String.length (Getenv host "WSDL") =? 0)%nat;
    eexists; split; reflexivity.
Qed.

Lemma getTimeRange_spec (host : Host) (w : World) (loc : Location) :
  LoadLocation host "Europe/Budapest" = Some loc →
  let now := {| unixNano := Now host; zone := loc |} in
  getTimeRange host w =
  (Returned (windowOf (Add now (wrap64 (hoursInThePast w * Hour))) now), w).
Proof. intros Hloc now. unfold getTimeRange. rewrite Hloc. reflexivity. Qed.

(** With [HOURS] unset or not a duration, the window starts three hours
    before now. *)
Lemma default_window_is_three_hours (host : Host) (w : World) (loc : Location) :
  LoadLocation host "Europe/Budapest" = Some loc →
  Getenv host "HOURS" = "" ∨ ParseDuration host (Getenv host "HOURS") = None →
  let now := {| unixNano := Now host; zone := loc |} in
  ∃ w', bind (getEnvironmentVariables host) (λ _, getTimeRange host) w =
        (Returned (windowOf (Add now (-3 * Hour)) now), w').
Proof.
  intros Hloc Hdefault now.
  destruct (getEnvironmentVariables_hours host w) as (w' & Hrun & Hhours).
  exists w'. rewrite (bind_returned _ _ _ _ _ Hrun), (getTimeRange_spec host w' loc Hloc).
  rewrite Hhours. destruct Hdefault as [-> | ->]; [reflexivity|].
  destruct (String.length (Getenv host "HOURS") =? 0)%nat; reflexivity.
Qed.

(** C2, where the code departs from it.  With HOURS=-3h, which
    [time.ParseDuration] reads as -10800000000000 ns, the product
    [hoursInThePast * time.Hour] overflows [int64]: the window starts
    430027188864024576 ns (more than thirteen years) before now, not three
    hours before. *)
Theorem C2_three_hours_overflow (host : Host) (w : World) (loc : Location) :
  Getenv host "HOURS" = "-3h" →
  ParseDuration host "-3h" = Some (-10800000000000) →
  LoadLocation host "Europe/Budapest" = Some loc →
  let now := {| unixNano := Now host; zone := loc |} in
  ∃ w', bind (getEnvironmentVariables host) (λ _, getTimeRange host) w =
        (Returned (windowOf (Add now (-430027188864024576)) now), w') ∧
        unixNano (Add now (-430027188864024576)) ≠ unixNano (Add now (-3 * Hour)).
Proof.
  intros Hhours Hparse Hloc now.
  destruct (getEnvironmentVariables_hours host w) as (w' & Hrun & Hoffset).
  exists w'. rewrite (bind_returned _ _ _ _ _ Hrun), (getTimeRange_spec host w' loc Hloc).
  rewrite Hoffset, Hhours, Hparse. split; [reflexivity|].
  cbn [unixNano Add]. unfold Hour. lia.
Qed.

Lemma C2_three_hours_overflow_witness :
  ∃ w', bind (getEnvironmentVariables (atNewYear "-3h" (Some (-10800000000000))))
             (λ _, getTimeRange (atNewYear "-3h" (Some (-10800000000000)))) blank =
        (Returned {| startDate := "2010-05-16"; endDate := "2024-01-01";
                     startHour := "21"; endHour := "1" |}, w').
Proof.
  destruct (C2_three_hours_overflow (atNewYear "-3h" (Some (-10800000000000))) blank
              (λ _, 3600) eq_refl eq_refl eq_refl) as (w' & Hrun & _).
  exists w'. rewrite Hrun. reflexivity.
Defined.

Example default_window_at_new_year :
  fst (bind (getEnvironmentVariables (atNewYear "" None))
            (λ _, getTimeRange (atNewYear "" None)) blank) =
  Returned {| startDate := "2023-12-31"; endDate := "2024-01-01";
              startHour := "22"; endHour := "1" |}.
Proof. vm_compute. reflexivity. Qed.

(** The whole run at 01:30 on New Year's Day with the default look-back: two
    fetches, the prices 7, 4, 5, 6, more increases than decreases, and the
    minimum frequency on the cores 0 to 2. *)
Example main_over_midnight :
  let host := serving (Some (answer "200 OK" [quotation "2023-12-31" 22 7;
                                              quotation "2023-12-31" 23 4])) in
  let run := main host threeFrequencies in
  fst run = Returned tt ∧
  fetched (snd run) = [earlierDay overMidnight; laterDay overMidnight] ∧
  written (snd run) = ceilingWrites 4 "800000" ∧
  files (snd run) !! scalingMaxFreqFile 2 = Some "800000" ∧
  files (snd run) !! scalingMaxFreqFile 3 = None.
Proof. vm_compute. repeat split. Qed.

(** ** Further properties of the program *)

(** *** Effects of the network functions *)















(** X5. [sendRequest] returns a response exactly when the request could be
    built, the transport delivered a response and its status is "200 OK", and
    then it is that response and nothing is logged; otherwise one line is
    logged.  One request is dispatched when it could be built and none
    otherwise; files, fetches and writes are untouched. *)
Theorem X5_sendRequest_answers_200_only
  (host : Host) (soapAction payload : string) (w : World) :
  let req := {| reqURL := wsdlService w; reqContentType := "text/xml";
                reqSOAPAction := soapAction; reqPayload := payload |} in
  ∃ result w',
    sendRequest host soapAction payload w = (Returned result, w') ∧
    (∀ res, result = Some res ↔
            NewRequest host (wsdlService w) = true ∧
            Do host (sent w) req = Some res ∧ Status res = "200 OK") ∧
    sent w' = (if NewRequest host (wsdlService w) then sent w ++ [req] else sent w) ∧
    (match result with
     | Some _ => logged w' = logged w
     | None => ∃ e, logged w' = logged w ++ [e]
     end) ∧
    files w' = files w ∧ fetched w' = fetched w ∧ written w' = written w.
Proof.
  intros req. do 2 eexists. split; [apply sendRequest_spec|]. fold req.
  unfold afterSend.
  destruct (NewRequest host (wsdlService w)) eqn:Hnew;
    [destruct (Do host (sent w) req) as [res|] eqn:Hdo;
     [destruct (String.eqb (Status res) "200 OK") eqn:Hstatus|]|];
    (split; [intros res0; split; [intros Hsome|intros (Hbuilt & Hsent & Hok)]
            |split; [reflexivity|split; [|repeat split]]]);
    try discriminate; try reflexivity; try (eexists; reflexivity).
  - injection Hsome as <-. apply String.eqb_eq in Hstatus. auto.
  - congruence.
  - apply String.eqb_neq in Hstatus. congruence.
Qed.

Lemma decodeItems_sound (raws : list RawItem) (items : list Item) :
  decodeItems raws = (items, false) →
  Forall2 (λ r it, decodeItem r = Some it) raws items.
Proof.
  revert items. induction raws as [|r raws IH]; intros items Hdecode; cbn in Hdecode.
  - injection Hdecode as <-. constructor.
  - destruct (decodeItem r) as [it|] eqn:Hr; [|discriminate].
    destruct (decodeItems raws) as [its err]. injection Hdecode as <- ->.
    constructor; [exact Hr|]. apply IH. reflexivity.
Qed.

(** X6. The extraction is all or nothing: either it reports an error, returns
    no price and logs the one line of the error, or it reports none, the body
    is an envelope whose records all coerce, and it returns one price per
    record, in document order, with one line logged per record.  It changes
    nothing but the log. *)
Theorem X6_extraction_is_all_or_nothing (res : Response) (w : World) :
  ∃ prices err w',
    extractPricesFromGetImPriceE res w = (Returned (prices, err), w') ∧
    (if err : bool
     then prices = [] ∧ logged w' = logged w ++ [ErrUnmarshal]
     else ∃ raws items,
            Body res = Envelope raws ∧
            Forall2 (λ r it, decodeItem r = Some it) raws items ∧
            prices = itemPrice <$> items ∧ length prices = length raws ∧
            logged w' = logged w ++
              ((λ s, InfoItem (itemDate s) (itemHour s) (itemPrice s) (itemVolume s))
                 <$> items)) ∧
    files w' = files w ∧ sent w' = sent w ∧ fetched w' = fetched w ∧
    written w' = written w.
Proof.
  do 3 eexists. split; [apply extractPricesFromGetImPriceE_spec|].
  split; [|repeat split].
  unfold pricesOf, extractLog, decodeFails.
  destruct (Decode (Body res)) as [items err] eqn:Hdecode. cbn [fst snd].
  destruct err; [split; reflexivity|].
  destruct (Body res) as [|raws] eqn:Hbody; [discriminate|]. cbn [Decode] in Hdecode.
  pose proof (decodeItems_sound raws items Hdecode) as Hall.
  exists raws, items. split; [reflexivity|]. split; [exact Hall|].
  split; [reflexivity|]. split; [|reflexivity].
  rewrite length_fmap. symmetry. exact (Forall2_length _ _ _ Hall).
Qed.

(** X7. When the request can be built, [GetImPriceE] dispatches exactly one
    request: a POST body that is the envelope of the source without its
    leading newline and tab, so that the four arguments stand in it verbatim,
    untrimmed and unescaped, with SOAPAction urn:GetImPriceE and content type
    text/xml, to the endpoint in [wsdlService]. *)
Theorem X7_arguments_are_sent_verbatim
  (host : Host) (startDate endDate startHour endHour : string) (w : World) :
  NewRequest host (wsdlService w) = true →
  ∃ result w' req,
    GetImPriceE host startDate endDate startHour endHour w = (Returned result, w') ∧
    sent w' = sent w ++ [req] ∧
    nl +:+ tab +:+ reqPayload req = imPriceEnvelope startDate endDate startHour endHour ∧
    reqSOAPAction req = "urn:GetImPriceE" ∧ reqContentType req = "text/xml" ∧
    reqURL req = wsdlService w.
Proof.
  intros Hnew.
  set (f := {| fetchStartDate := startDate; fetchEndDate := endDate;
               fetchStartHour := startHour; fetchEndHour := endHour |}).
  exists (fetchResponse host (wsdlService w) (sent w) f),
         (afterSend host (imPriceRequest (wsdlService w) f) (addFetched f w)),
         (imPriceRequest (wsdlService w) f).
  split; [exact (GetImPriceE_spec host f w)|].
  split.
  - unfold afterSend. cbn [wsdlService sent addFetched]. rewrite Hnew.
    destruct (Do host (sent w) (imPriceRequest (wsdlService w) f)) as [res|];
      [destruct (String.eqb (Status res) "200 OK")|]; reflexivity.
  - split; [apply payload_is_the_envelope|repeat split].
Qed.

Lemma X7_arguments_are_sent_verbatim_witness :
  ∃ result w' req,
    GetImPriceE (serving None) " 2023-12-31" "<later/>" "22 " "24" blank
    = (Returned result, w') ∧
    sent w' = [req] ∧
    nl +:+ tab +:+ reqPayload req = imPriceEnvelope " 2023-12-31" "<later/>" "22 " "24".
Proof.
  destruct (X7_arguments_are_sent_verbatim (serving None)
              " 2023-12-31" "<later/>" "22 " "24" blank eq_refl)
    as (result & w' & req & Hrun & Hsent & Hpayload & _).
  exists result, w', req. split; [exact Hrun|]. split; [exact Hsent|exact Hpayload].
Defined.

(** *** The whole run *)

Lemma getEnvironmentVariables_configures (host : Host) (w : World) :
  ∃ w', getEnvironmentVariables host w = (Returned tt, w') ∧
        hoursInThePast w' = configuredHours host ∧ wsdlService w' = endpoint host ∧
        files w' = files w ∧ sent w' = sent w ∧ fetched w' = fetched w ∧
        written w' = written w ∧
        (∀ e, e ∈ logged w → e ∈ logged w').
Proof.
  unfold getEnvironmentVariables, configuredHours, endpoint. unfold_run.
  destruct (String.length (Getenv host "HOURS") =? 0)%nat;
    [|destruct (ParseDuration host (Getenv host "HOURS"))];
    cbn; destruct (String.length (Getenv host "WSDL") =? 0)%nat;
    eexists; (split; [reflexivity|]); cbn; repeat split; try reflexivity;
    intros e He; rewrite ?elem_of_app; auto.
Qed.






(** X1. On a host that cannot load the time zone the run ends with
    [os.Exit(1)] after logging the failure: no fetch is started, no request
    is dispatched, no core is written to and no file changes. *)
Theorem X1_no_time_zone_is_fatal (host : Host) (w : World) :
  LoadLocation host "Europe/Budapest" = None →
  ∃ w', main host w = (Exited 1, w') ∧
        FatalLocation ∈ logged w' ∧
        fetched w' = fetched w ∧ sent w' = sent w ∧ written w' = written w ∧
        files w' = files w.
Proof.
  intros Hloc.
  destruct (getEnvironmentVariables_configures host w)
    as (w1 & Henv & _ & _ & Hfiles & Hsent & Hfetched & Hwritten & _).
  exists (addLogged FatalLocation w1). split.
  - unfold main. rewrite (bind_returned _ _ _ _ _ Henv).
    unfold getTimeRange. rewrite Hloc. reflexivity.
  - cbn [logged fetched sent written files addLogged].
    split; [rewrite elem_of_app; right; left|]. auto.
Qed.

Lemma X1_no_time_zone_is_fatal_witness :
  ∃ w', main noZone threeFrequencies = (Exited 1, w') ∧
        FatalLocation ∈ logged w' ∧
        fetched w' = [] ∧ sent w' = [] ∧ written w' = [] ∧
        files w' = files threeFrequencies.
Proof. exact (X1_no_time_zone_is_fatal noZone threeFrequencies eq_refl). Defined.





(** *** More on frequency discovery *)

(** X8. The range encloses every entry that parses: min is at most, and max
    at least, each of them; min never exceeds 10000000, max is never
    negative, and both fit Go's [int]. *)
Theorem X8_range_encloses_the_entries (frequencies : list string) :
  Forall (λ f, fst (frequencyRange frequencies) ≤ f ≤ snd (frequencyRange frequencies))
         (parsedEntries frequencies) ∧
  fst (frequencyRange frequencies) ≤ 10000000 ∧
  0 ≤ snd (frequencyRange frequencies) ∧
  in_int64 (fst (frequencyRange frequencies)) = true ∧
  in_int64 (snd (frequencyRange frequencies)) = true.
Proof.
  unfold frequencyRange. rewrite frequencyRange_from. cbn [fst snd].
  set (parsed := parsedEntries frequencies).
  destruct (fold_min_le parsed 10000000) as [Hmin_start Hmin_elem].
  destruct (fold_max_ge parsed 0) as [Hmax_start Hmax_elem].
  split; [|split; [exact Hmin_start|split; [exact Hmax_start|split]]].
  - apply Forall_forall. intros f Hf. split; auto.
  - destruct (fold_min_choice parsed 10000000) as [->|Hin]; [reflexivity|].
    exact (parsedEntries_in_int64 _ _ Hin).
  - destruct (fold_max_choice parsed 0) as [->|Hin]; [reflexivity|].
    exact (parsedEntries_in_int64 _ _ Hin).
Qed.

Lemma fold_min_from (l : list Z) (a b : Z) :
  a ≤ b → fold_left Z.min l a = Z.min a (fold_left Z.min l b).
Proof.
  revert a b. induction l as [|x l IH]; intros a b Hab; cbn [fold_left]; [lia|].
  rewrite (IH (Z.min a x) (Z.min b x)) by lia.
  destruct (fold_min_le l (Z.min b x)) as [Hstart _]. lia.
Qed.

Lemma fold_max_from (l : list Z) (a b : Z) :
  b ≤ a → fold_left Z.max l a = Z.max a (fold_left Z.max l b).
Proof.
  revert a b. induction l as [|x l IH]; intros a b Hab; cbn [fold_left]; [lia|].
  rewrite (IH (Z.max a x) (Z.max b x)) by lia.
  destruct (fold_max_ge l (Z.max b x)) as [Hstart _]. lia.
Qed.

Lemma parsedEntries_app (l1 l2 : list string) :
  parsedEntries (l1 ++ l2) = parsedEntries l1 ++ parsedEntries l2.
Proof.
  induction l1 as [|entry l1 IH]; [reflexivity|].
  cbn [app]. rewrite !parsedEntries_cons, IH. destruct (Atoi entry); reflexivity.
Qed.

(** X9. The range of two lists of entries put together is the hull of their
    ranges: the smaller min and the larger max. *)
Theorem X9_range_of_joined_entries (entries1 entries2 : list string) :
  frequencyRange (entries1 ++ entries2) =
  (Z.min (fst (frequencyRange entries1)) (fst (frequencyRange entries2)),
   Z.max (snd (frequencyRange entries1)) (snd (frequencyRange entries2))).
Proof.
  unfold frequencyRange. rewrite !frequencyRange_from, parsedEntries_app, !fold_left_app.
  cbn [fst snd].
  destruct (fold_min_le (parsedEntries entries1) 10000000) as [Hmin _].
  destruct (fold_max_ge (parsedEntries entries1) 0) as [Hmax _].
  f_equal; [apply fold_min_from|apply fold_max_from]; assumption.
Qed.

Lemma narrow_comm (r : Z * Z) (x y : string) :
  narrow (narrow r x) y = narrow (narrow r y) x.
Proof.
  destruct r as [a b]. rewrite (narrow_min_max a b x), (narrow_min_max a b y).
  destruct (Atoi x) as [f|] eqn:Hx, (Atoi y) as [g|] eqn:Hy;
    rewrite !narrow_min_max, ?Hx, ?Hy; try reflexivity.
  f_equal; lia.
Qed.

Lemma narrow_permutation (l l' : list string) :
  l ≡ₚ l' → ∀ r, fold_left narrow l r = fold_left narrow l' r.
Proof.
  induction 1 as [|x l l' _ IH|x y l|l l' l'' _ IH1 _ IH2]; intros r; cbn [fold_left].
  - reflexivity.
  - apply IH.
  - rewrite narrow_comm. reflexivity.
  - rewrite IH1. apply IH2.
Qed.

(** X10. The range does not depend on the order in which the capability file
    lists its entries. *)
Theorem X10_range_ignores_the_order (entries entries' : list string) :
  entries ≡ₚ entries' → frequencyRange entries = frequencyRange entries'.
Proof. intros Hperm. unfold frequencyRange. apply narrow_permutation. exact Hperm. Qed.

Lemma X10_range_ignores_the_order_witness :
  frequencyRange ["1600000"; "n/a"; "800000"] = frequencyRange ["800000"; "1600000"; "n/a"].
Proof.
  apply X10_range_ignores_the_order.
  change ["1600000"; "n/a"; "800000"] with (["1600000"; "n/a"] ++ ["800000"]).
  rewrite Permutation_app_comm. reflexivity.
Defined.

Lemma Split_nonempty (s : string) (sep : ascii) : Split s sep ≠ [].
Proof.
  destruct s as [|c s]; cbn [Split]; [discriminate|].
  destruct (Ascii.eqb c sep); [discriminate|]. destruct (Split s sep); discriminate.
Qed.

(** Text after the last separator lands in the last piece. *)
Lemma Split_trailing (s : string) (init : list string) (lst : string) :
  Split s " " = init ++ [lst] → Split (s +:+ nl) " " = init ++ [lst +:+ nl].
Proof.
  revert init lst. induction s as [|c s IH]; intros init lst Hsplit.
  - destruct init as [|x [|y init]]; [|discriminate Hsplit..].
    injection Hsplit as <-. reflexivity.
  - change (String c s +:+ nl) with (String c (s +:+ nl)).
    cbn [Split] in Hsplit |- *. destruct (Ascii.eqb c " ").
    + destruct init as [|x init].
      * apply (f_equal (@length string)) in Hsplit. cbn in Hsplit.
        pose proof (Split_nonempty s " "). destruct (Split s " "); [contradiction|].
        cbn in Hsplit. lia.
      * injection Hsplit as <- Hsplit. rewrite (IH init lst Hsplit). reflexivity.
    + destruct (Split s " ") as [|piece pieces] eqn:Hs;
        [exfalso; exact (Split_nonempty s " " Hs)|].
      destruct init as [|x init].
      * injection Hsplit as <- Hpieces. subst pieces.
        rewrite (IH [] piece eq_refl). reflexivity.
      * injection Hsplit as <- Hpieces. subst pieces.
        rewrite (IH (piece :: init) lst eq_refl). reflexivity.
Qed.

Lemma uint_of_string_newline (s : string) : NilEmpty.uint_of_string (s +:+ nl) = None.
Proof.
  induction s as [|c s IH]; [reflexivity|].
  change (String c s +:+ nl) with (String c (s +:+ nl)).
  cbn [NilEmpty.uint_of_string]. rewrite IH. reflexivity.
Qed.

(** No text that ends with a newline is an integer for [Atoi]. *)
Lemma Atoi_newline (s : string) : Atoi (s +:+ nl) = None.
Proof.
  destruct s as [|c s]; [reflexivity|].
  change (String c s +:+ nl) with (String c (s +:+ nl)). unfold Atoi.
  destruct (Ascii.eqb c "-"); [|destruct (Ascii.eqb c "+")].
  - destruct s; [reflexivity|].
    change (String a s +:+ nl) with (String a (s +:+ nl)).
    change (String a (s +:+ nl)) with (String a s +:+ nl).
    rewrite uint_of_string_newline. reflexivity.
  - destruct s; [reflexivity|].
    change (String a s +:+ nl) with (String a (s +:+ nl)).
    change (String a (s +:+ nl)) with (String a s +:+ nl).
    rewrite uint_of_string_newline. reflexivity.
  - change (String c (s +:+ nl)) with (String c s +:+ nl).
    rewrite uint_of_string_newline. reflexivity.
Qed.

(** X11. In a capability file that ends with a newline the last entry, which
    carries the newline, never parses: the range is that of the entries
    before it.  (sysfs ends the list with a space before the newline, so that
    the entry lost is an empty one.) *)
Theorem X11_entry_with_the_final_newline_is_skipped
  (host : Host) (w : World) (content : string) :
  files w !! scalingAvailableFrequenciesFile = Some (content +:+ nl) →
  Readable host scalingAvailableFrequenciesFile = true →
  ∃ w', getAvailableCPUFrequencies host scalingAvailableFrequenciesFile w
        = (Returned (List.removelast (Split content " ") ++ [List.last (Split content " ") "" +:+ nl]),
           w') ∧
        frequencyRange (List.removelast (Split content " ") ++
                        [List.last (Split content " ") "" +:+ nl])
        = frequencyRange (List.removelast (Split content " ")).
Proof.
  intros Hfile Hreadable. eexists. split.
  - rewrite getAvailableCPUFrequencies_spec. f_equal. f_equal.
    unfold capabilityEntries. rewrite Hfile, Hreadable.
    assert (Hnonempty : String.eqb (content +:+ nl) "" = false).
    { apply String.eqb_neq. intros Hempty.
      apply (f_equal String.length) in Hempty. rewrite string_length_app in Hempty.
      cbn in Hempty. lia. }
    rewrite Hnonempty. apply Split_trailing.
    apply app_removelast_last. apply Split_nonempty.
  - unfold frequencyRange. rewrite fold_left_app. cbn [fold_left].
    destruct (fold_left narrow _ _) as [a b]. rewrite narrow_min_max, Atoi_newline.
    reflexivity.
Qed.

Lemma X11_entry_with_the_final_newline_is_skipped_witness :
  ∃ w', getAvailableCPUFrequencies fourCores scalingAvailableFrequenciesFile
          (setFiles {[ scalingAvailableFrequenciesFile :=
                         "800000 1200000 1600000" +:+ nl ]} blank)
        = (Returned ["800000"; "1200000"; "1600000" +:+ nl], w') ∧
        frequencyRange ["800000"; "1200000"; "1600000" +:+ nl] = (800000, 1200000).
Proof.
  assert (Hfile : files (setFiles {[ scalingAvailableFrequenciesFile :=
                                       "800000 1200000 1600000" +:+ nl ]} blank)
                  !! scalingAvailableFrequenciesFile
                  = Some ("800000 1200000 1600000" +:+ nl))
    by apply lookup_singleton_eq.
  destruct (X11_entry_with_the_final_newline_is_skipped fourCores _
              "800000 1200000 1600000" Hfile eq_refl) as (w' & Hrun & Hrange).
  exists w'. split; [exact Hrun|exact Hrange].
Defined.

(** *** More on the scaler *)

(** The capability file is none of the control files the scaler writes. *)
Lemma capability_file_is_no_control_file (i : Z) :
  scalingAvailableFrequenciesFile ≠ scalingMaxFreqFile i.
Proof.
  unfold scalingAvailableFrequenciesFile, scalingMaxFreqFile. intros Heq.
  apply (f_equal String.rev) in Heq. rewrite !string_rev_app in Heq.
  change (String.rev "/cpufreq/scaling_max_freq")
    with (String "q" (String.rev "/cpufreq/scaling_max_fre")) in Heq.
  change (String.rev "/sys/devices/system/cpu/cpu0/cpufreq/scaling_available_frequencies")
    with (String "s" (String.rev
            "/sys/devices/system/cpu/cpu0/cpufreq/scaling_available_frequencie")) in Heq.
  discriminate Heq.
Qed.

Lemma capabilityEntries_lookup (host : Host) (w w' : World) :
  files w' !! scalingAvailableFrequenciesFile = files w !! scalingAvailableFrequenciesFile →
  capabilityEntries host w' = capabilityEntries host w.
Proof. intros Hfile. unfold capabilityEntries. rewrite Hfile. reflexivity. Qed.

(** Stepping through cores whose accepted writes are already in place changes
    no file. *)
Lemma coreSteps_in_place (host : Host) (target : Z) (cores : list Z) (w : World) :
  (∀ i, i ∈ cores → Writable host (scalingMaxFreqFile i) (Itoa target) = true →
        files w !! scalingMaxFreqFile i = Some (Itoa target)) →
  files (fold_left (coreStep host target) cores w) = files w.
Proof.
  revert w. induction cores as [|i cores IH]; intros w Hplace; [reflexivity|].
  cbn [fold_left].
  assert (Hstep : files (coreStep host target w i) = files w).
  { rewrite coreStep_files.
    destruct (Writable host (scalingMaxFreqFile i) (Itoa target)) eqn:Hok; [|reflexivity].
    apply insert_id. apply Hplace; [left|exact Hok]. }
  rewrite IH, Hstep; [reflexivity|].
  intros j Hj Hok. rewrite Hstep. apply Hplace; [right; exact Hj|exact Hok].
Qed.

(** X12. The scaler never writes the capability file, so a second run on the
    same prices discovers the same entries, chooses the same target and
    attempts the same writes; and it finds every accepted write already in
    place: the files after the second run are those after the first. *)
Theorem X12_scaling_again_changes_nothing
  (host : Host) (prices : list float32) (w : World) :
  ∃ w1 w2,
    scaleCPUFrequency host prices w = (Returned tt, w1) ∧
    scaleCPUFrequency host prices w1 = (Returned tt, w2) ∧
    files w1 !! scalingAvailableFrequenciesFile
    = files w !! scalingAvailableFrequenciesFile ∧
    capabilityEntries host w1 = capabilityEntries host w ∧
    written w2 = written w1 ++
                 ceilingWrites (NumCPU host) (Itoa (chosenTarget host prices w)) ∧
    files w2 = files w1.
Proof.
  set (target := chosenTarget host prices w).
  set (cores := seqZ 0 (NumCPU host - 1)).
  pose proof (scaleCPUFrequency_spec host prices w) as Hrun1. fold target cores in Hrun1.
  match type of Hrun1 with
  | _ = (_, fold_left _ _ ?x) => set (w0 := x) in Hrun1
  end.
  set (w1 := fold_left (coreStep host target) cores w0) in Hrun1.
  assert (Hfiles0 : files w0 = files w)
    by (subst w0; cbn; apply afterDiscovery_frame).
  assert (Hcapability : files w1 !! scalingAvailableFrequenciesFile
                        = files w !! scalingAvailableFrequenciesFile).
  { subst w1. rewrite coreSteps_frame, Hfiles0; [reflexivity|].
    intros i _. apply capability_file_is_no_control_file. }
  assert (Hentries : capabilityEntries host w1 = capabilityEntries host w)
    by exact (capabilityEntries_lookup host w w1 Hcapability).
  assert (Htarget : chosenTarget host prices w1 = target)
    by (subst target; unfold chosenTarget; rewrite Hentries; reflexivity).
  pose proof (scaleCPUFrequency_spec host prices w1) as Hrun2.
  rewrite Htarget in Hrun2. fold cores in Hrun2.
  match type of Hrun2 with
  | _ = (_, fold_left _ _ ?x) => set (w0' := x) in Hrun2
  end.
  assert (Hfiles0' : files w0' = files w1)
    by (subst w0'; cbn; apply afterDiscovery_frame).
  exists w1, (fold_left (coreStep host target) cores w0').
  split; [exact Hrun1|]. split; [exact Hrun2|].
  split; [exact Hcapability|]. split; [exact Hentries|]. split.
  - rewrite coreSteps_written. subst w0'. cbn [written addLogged].
    destruct (afterDiscovery_frame host w1) as (_ & -> & _). reflexivity.
  - rewrite coreSteps_in_place; [exact Hfiles0'|].
    intros i Hi Hok. rewrite Hfiles0'. subst w1.
    apply coreSteps_accepted; assumption.
Qed.

Lemma countIf_none {A} (p : A → bool) (l : list A) :
  Forall (λ x, p x = false) l → countIf p l = 0.
Proof.
  unfold countIf. induction 1 as [|x l Hx _ IH]; [reflexivity|].
  cbn [List.filter]. rewrite Hx. exact IH.
Qed.

Lemma countIf_all {A} (p : A → bool) (l : list A) :
  Forall (λ x, p x = true) l → countIf p l = Z.of_nat (length l).
Proof.
  unfold countIf. induction 1 as [|x l Hx _ IH]; [reflexivity|].
  cbn [List.filter length]. rewrite Hx. cbn [length]. lia.
Qed.

(** X13. A series whose every step is a decrease (later <= earlier) sets the
    maximum of the range, whatever its length; a series of two or more prices
    whose every step is an increase sets the minimum. *)
Theorem X13_one_way_series (host : Host) (prices : list float32) (w : World) :
  ∃ w', scaleCPUFrequency host prices w = (Returned tt, w') ∧
    (Forall (λ p, isDecrease p = true) (adjacentPairs prices) →
     written w' = written w ++
       ceilingWrites (NumCPU host) (Itoa (snd (frequencyRange (capabilityEntries host w))))) ∧
    ((2 ≤ length prices)%nat →
     Forall (λ p, isDecrease p = false) (adjacentPairs prices) →
     written w' = written w ++
       ceilingWrites (NumCPU host) (Itoa (fst (frequencyRange (capabilityEntries host w))))).
Proof.
  destruct (scaleCPUFrequency_written host prices w) as (w' & Hrun & Hwritten & _).
  exists w'. split; [exact Hrun|]. rewrite Hwritten. unfold chosenTarget.
  destruct (counts_cover_pairs prices) as (Htotal & Hdec & Hinc & Hpairs).
  destruct (frequencyRange (capabilityEntries host w)) as [minF maxF]. cbn [fst snd].
  split.
  - intros Hall. unfold increases.
    rewrite (countIf_none (λ p, negb (isDecrease p)))
      by (eapply Forall_impl; [exact Hall|]; intros p ->; reflexivity).
    destruct (Z.ltb_spec (decreases prices) 0); [lia|reflexivity].
  - intros Hlong Hall.
    assert (Hnone : decreases prices = 0) by (apply countIf_none; exact Hall).
    destruct (Z.ltb_spec (decreases prices) (increases prices)); [reflexivity|lia].
Qed.

Lemma X13_one_way_series_witness :
  ∃ w', scaleCPUFrequency fourCores [f32 3 0; f32 7 (-1); f32 4 0] threeFrequencies
        = (Returned tt, w') ∧
        written w' = ceilingWrites 4 "800000".
Proof.
  destruct (X13_one_way_series fourCores [f32 3 0; f32 7 (-1); f32 4 0] threeFrequencies)
    as (w' & Hrun & _ & Hup).
  exists w'. split; [exact Hrun|]. apply Hup; [cbn; lia|].
  repeat constructor.
Defined.

Lemma isDecrease_nan (p : float32 * float32) :
  fst p = S754_nan ∨ snd p = S754_nan → isDecrease p = false.
Proof.
  destruct p as [earlier later]. unfold isDecrease, f32le. cbn [fst snd].
  intros [-> | ->]; [destruct later as [| | |[] ? ?]|]; reflexivity.
Qed.

(** X14. A step with a NaN on either side is an increase, since [<=] is false
    on a NaN: a series of two or more prices in which every step touches a
    NaN sets the minimum of the range. *)
Theorem X14_missing_prices_count_as_increases
  (host : Host) (prices : list float32) (w : World) :
  (2 ≤ length prices)%nat →
  Forall (λ p, fst p = S754_nan ∨ snd p = S754_nan) (adjacentPairs prices) →
  ∃ w', scaleCPUFrequency host prices w = (Returned tt, w') ∧
        decreases prices = 0 ∧
        increases prices = Z.of_nat (length prices) - 1 ∧
        written w' = written w ++
          ceilingWrites (NumCPU host)
            (Itoa (fst (frequencyRange (capabilityEntries host w)))).
Proof.
  intros Hlong Hnan.
  assert (Hall : Forall (λ p, isDecrease p = false) (adjacentPairs prices))
    by (eapply Forall_impl; [exact Hnan|]; exact isDecrease_nan).
  destruct (scaleCPUFrequency_written host prices w) as (w' & Hrun & Hwritten & _).
  destruct (counts_cover_pairs prices) as (Htotal & _ & _ & Hpairs).
  assert (Hnone : decreases prices = 0) by (apply countIf_none; exact Hall).
  exists w'. split; [exact Hrun|]. split; [exact Hnone|]. split; [lia|].
  rewrite Hwritten. unfold chosenTarget.
  destruct (frequencyRange (capabilityEntries host w)) as [minF maxF]. cbn [fst].
  destruct (Z.ltb_spec (decreases prices) (increases prices)); [reflexivity|lia].
Qed.

Lemma X14_missing_prices_count_as_increases_witness :
  ∃ w', scaleCPUFrequency fourCores [f32 9 0; S754_nan; f32 2 0] threeFrequencies
        = (Returned tt, w') ∧
        decreases [f32 9 0; S754_nan; f32 2 0] = 0 ∧
        increases [f32 9 0; S754_nan; f32 2 0] = 2 ∧
        written w' = ceilingWrites 4 "800000".
Proof.
  apply (X14_missing_prices_count_as_increases fourCores
           [f32 9 0; S754_nan; f32 2 0] threeFrequencies); [cbn; lia|].
  constructor; [right; reflexivity|].
  constructor; [left; reflexivity|]. constructor.
Defined.

(** *** More on the time window *)

Lemma HourOf_range (t : Time) : 0 ≤ HourOf t ≤ 23.
Proof.
  unfold HourOf. pose proof (Z.mod_pos_bound (localSeconds t) 86400 ltac:(lia)) as Hmod.
  split; [apply Z.div_pos; lia|].
  assert ((localSeconds t `mod` 86400) `div` 3600 < 24)
    by (apply Z.div_lt_upper_bound; lia).
  lia.
Qed.

(** X16. The window's hours are clock hours: [startHour] and [endHour] are the
    decimal texts of integers between 0 and 23, whatever the look-back and the
    zone; and [getTimeRange] changes nothing. *)
Theorem X16_hours_are_clock_hours (host : Host) (w : World) (loc : Location) :
  LoadLocation host "Europe/Budapest" = Some loc →
  ∃ times hs he,
    getTimeRange host w = (Returned times, w) ∧
    Atoi (startHour times) = Some hs ∧ Atoi (endHour times) = Some he ∧
    0 ≤ hs ≤ 23 ∧ 0 ≤ he ≤ 23.
Proof.
  intros Hloc. do 3 eexists.
  split; [apply (getTimeRange_spec host w loc Hloc)|]. cbn [windowOf startHour endHour].
  assert (Hfits : ∀ t, in_int64 (HourOf t) = true).
  { intros t. pose proof (HourOf_range t). unfold in_int64, int64_min, int64_max.
    apply andb_true_intro. split; apply Z.leb_le; lia. }
  split; [apply Atoi_Itoa, Hfits|]. split; [apply Atoi_Itoa, Hfits|].
  split; apply HourOf_range.
Qed.

Lemma X16_hours_are_clock_hours_witness :
  ∃ times hs he,
    getTimeRange (atNewYear "-3h" (Some (-10800000000000)))
      (setHoursInThePast (-10800000000000) blank)
    = (Returned times, setHoursInThePast (-10800000000000) blank) ∧
    Atoi (startHour times) = Some hs ∧ Atoi (endHour times) = Some he ∧
    0 ≤ hs ≤ 23 ∧ 0 ≤ he ≤ 23.
Proof.
  exact (X16_hours_are_clock_hours (atNewYear "-3h" (Some (-10800000000000)))
           (setHoursInThePast (-10800000000000) blank) (λ _, 3600) eq_refl).
Defined.

Lemma three_hours_earlier (n off off' : Z) :
  off' = off →
  let later := n `div` 1000000000 + off in
  let earlier := (n + -10800000000000) `div` 1000000000 + off' in
  3 ≤ (later `mod` 86400) `div` 3600 →
  (earlier `mod` 86400) `div` 3600 = (later `mod` 86400) `div` 3600 - 3 ∧
  earlier `div` 86400 = later `div` 86400.
Proof.
  intros -> later earlier Hhour. subst later earlier.
  assert (Hsec : (n + -10800000000000) `div` 1000000000 = n `div` 1000000000 - 10800).
  { replace (n + -10800000000000) with (n + (-10800) * 1000000000) by lia.
    rewrite Z.div_add by lia. lia. }
  rewrite Hsec. set (s := n `div` 1000000000 + off) in *.
  replace (n `div` 1000000000 - 10800 + off) with (s - 10800) by (subst s; lia).
  pose proof (Z.div_mod s 86400 ltac:(lia)) as Hs.
  pose proof (Z.mod_pos_bound s 86400 ltac:(lia)) as Hbound.
  assert (Hlate : 10800 ≤ s `mod` 86400).
  { destruct (Z.le_gt_cases 10800 (s `mod` 86400)) as [Hle|Hgt]; [exact Hle|].
    assert ((s `mod` 86400) `div` 3600 < 3) by (apply Z.div_lt_upper_bound; lia). lia. }
  assert (Hday : (s - 10800) `div` 86400 = s `div` 86400).
  { symmetry. apply (Z.div_unique _ _ _ (s `mod` 86400 - 10800)); lia. }
  assert (Hmod : (s - 10800) `mod` 86400 = s `mod` 86400 - 10800).
  { symmetry. apply (Z.mod_unique _ _ (s `div` 86400)); lia. }
  split; [|exact Hday]. rewrite Hmod.
  replace (s `mod` 86400 - 10800) with (s `mod` 86400 + (-3) * 3600) by lia.
  rewrite Z.div_add by lia. lia.
Qed.

(** X17. With the look-back at its default of -3 and no change of the zone's
    offset in between, a run at or after 3 o'clock local time looks at one
    day: the window's dates are equal, its hours are the current one and the
    one three before, and the orchestrator starts exactly one fetch, for that
    date and these hours. *)
Theorem X17_default_window_after_three (host : Host) (w : World) (loc : Location) :
  LoadLocation host "Europe/Budapest" = Some loc →
  hoursInThePast w = -3 →
  let now := {| unixNano := Now host; zone := loc |} in
  loc ((Now host + -10800000000000) `div` 1000000000) = loc (Now host `div` 1000000000) →
  3 ≤ HourOf now →
  ∃ prices w',
    bind (getTimeRange host) (getElectrictyPrices host) w = (Returned prices, w') ∧
    fetched w' = fetched w ++
      [{| fetchStartDate := formatDate (DateOf now); fetchEndDate := formatDate (DateOf now);
          fetchStartHour := Itoa (HourOf now - 3); fetchEndHour := Itoa (HourOf now) |}].
Proof.
  intros Hloc Hdefault now Hzone Hhour.
  pose proof (getTimeRange_spec host w loc Hloc) as Hrange. cbn zeta in Hrange.
  rewrite Hdefault in Hrange. change (wrap64 (-3 * Hour)) with (-10800000000000) in Hrange.
  fold now in Hrange.
  destruct (three_hours_earlier (Now host) _ _ Hzone Hhour) as [Hearlier Hday].
  assert (Hhours : HourOf (Add now (-10800000000000)) = HourOf now - 3) by exact Hearlier.
  assert (Hdates : DateOf (Add now (-10800000000000)) = DateOf now)
    by (unfold DateOf; f_equal; exact Hday).
  unfold windowOf in Hrange. rewrite Hhours, Hdates in Hrange.
  rewrite (bind_returned _ _ _ _ _ Hrange).
  match goal with |- context [getElectrictyPrices host ?t w] => set (times := t) end.
  destruct (getElectrictyPrices_one_day host times w eq_refl)
    as (prices & w' & Hrun & Hfetched & _).
  exists prices, w'. split; [exact Hrun|exact Hfetched].
Qed.

Lemma X17_default_window_after_three_witness :
  ∃ prices w',
    bind (getTimeRange inTheAfternoon) (getElectrictyPrices inTheAfternoon)
         (setHoursInThePast (-3) blank) = (Returned prices, w') ∧
    fetched w' = [{| fetchStartDate := "2024-06-15"; fetchEndDate := "2024-06-15";
                     fetchStartHour := "11"; fetchEndHour := "14" |}].
Proof.
  assert (Hhour : 3 ≤ HourOf {| unixNano := Now inTheAfternoon; zone := λ _, 7200 |})
    by (vm_compute; discriminate).
  exact (X17_default_window_after_three inTheAfternoon (setHoursInThePast (-3) blank)
           (λ _, 7200) eq_refl eq_refl eq_refl Hhour).
Defined.





(** X19. With [HOURS] unset, or set to what [time.ParseDuration] rejects (a
    plain number, for one), the window begins exactly three hours before now;
    a rejected value is reported in the log. *)
Theorem X19_default_look_back (host : Host) (w : World) (loc : Location) :
  LoadLocation host "Europe/Budapest" = Some loc →
  Getenv host "HOURS" = "" ∨ ParseDuration host (Getenv host "HOURS") = None →
  let now := {| unixNano := Now host; zone := loc |} in
  ∃ before w',
    bind (getEnvironmentVariables host) (λ _, getTimeRange host) w
    = (Returned (windowOf before now), w') ∧
    zone before = loc ∧ unixNano before = Now host - 10800000000000 ∧
    hoursInThePast w' = -3 ∧
    (Getenv host "HOURS" ≠ "" → InfoParsingHours (Getenv host "HOURS") ∈ logged w').
Proof.
  intros Hloc Hdefault now.
  exists (Add now (-3 * Hour)).
  unfold getEnvironmentVariables. unfold_run.
  destruct (String.length (Getenv host "HOURS") =? 0)%nat eqn:Hlen.
  - cbn. destruct (String.length (Getenv host "WSDL") =? 0)%nat; cbn;
      rewrite (getTimeRange_spec host _ loc Hloc); cbn [hoursInThePast setHoursInThePast
        setWsdlService]; eexists; (split; [reflexivity|]); repeat split;
      intros Hset; destruct (Getenv host "HOURS"); [contradiction|discriminate Hlen
        |contradiction|discriminate Hlen].
  - assert (Hnone : ParseDuration host (Getenv host "HOURS") = None).
    { destruct Hdefault as [Hunset|Hnone]; [|exact Hnone].
      rewrite Hunset in Hlen. discriminate Hlen. }
    rewrite Hnone. cbn. destruct (String.length (Getenv host "WSDL") =? 0)%nat; cbn;
      rewrite (getTimeRange_spec host _ loc Hloc); cbn [hoursInThePast setHoursInThePast
        setWsdlService addLogged]; eexists; (split; [reflexivity|]); repeat split;
      intros _; cbn; rewrite elem_of_app; right; left.
Qed.

Lemma X19_default_look_back_witness :
  ∃ before w',
    bind (getEnvironmentVariables (atNewYear "-2" None))
         (λ _, getTimeRange (atNewYear "-2" None)) blank
    = (Returned (windowOf before {| unixNano := 1704069000000000000; zone := λ _, 3600 |}),
       w') ∧
    unixNano before = 1704069000000000000 - 10800000000000 ∧
    InfoParsingHours "-2" ∈ logged w'.
Proof.
  destruct (X19_default_look_back (atNewYear "-2" None) blank (λ _, 3600) eq_refl
              (or_intror eq_refl))
    as (before & w' & Hrun & _ & Hbefore & _ & Hlog).
  exists before, w'. split; [exact Hrun|]. split; [exact Hbefore|].
  apply Hlog. discriminate.
Defined.

(** *** More on the orchestrator *)

(** A fetch that obtains a response logs nothing. *)
Lemma afterSend_answered (host : Host) (f : Fetch) (w : World) (res : Response) :
  fetchResponse host (wsdlService w) (sent w) f = Some res →
  logged (afterSend host (imPriceRequest (wsdlService w) f) (addFetched f w)) = logged w.
Proof.
  unfold fetchResponse, afterSend. cbn [wsdlService sent addFetched].
  destruct (NewRequest host (wsdlService w)); [|discriminate].
  destruct (Do host (sent w) (imPriceRequest (wsdlService w) f)) as [res'|]; [|discriminate].
  destruct (String.eqb (Status res') "200 OK"); [reflexivity|discriminate].
Qed.

(** X20. Within one day, when the fetch obtains a response whose records all
    coerce, the series returned holds one price per record, in document
    order (none for an envelope without records), and the log gains the line
    of the call and one line per record, no error line. *)
Theorem X20_one_day_series
  (host : Host) (times : Times) (w : World)
  (res : Response) (raws : list RawItem) (items : list Item) :
  startDate times = endDate times →
  fetchResponse host (wsdlService w) (sent w) (wholeWindow times) = Some res →
  Body res = Envelope raws →
  Forall2 (λ r it, decodeItem r = Some it) raws items →
  ∃ w', getElectrictyPrices host times w = (Returned (itemPrice <$> items), w') ∧
        length (itemPrice <$> items) = length raws ∧
        logged w' = logged w ++
          InfoFunctionCall ::
          ((λ s, InfoItem (itemDate s) (itemHour s) (itemPrice s) (itemVolume s)) <$> items).
Proof.
  intros Hsame Hfetch Hbody Hall.
  assert (Hdecode : Decode (Body res) = (items, false))
    by (rewrite Hbody; exact (decodeItems_all raws items Hall)).
  assert (Hprices : pricesOf res = itemPrice <$> items)
    by (unfold pricesOf, decodeFails; rewrite Hdecode; reflexivity).
  assert (Hlog : extractLog res =
                 (λ s, InfoItem (itemDate s) (itemHour s) (itemPrice s) (itemVolume s))
                   <$> items)
    by (unfold extractLog, decodeFails; rewrite Hdecode; reflexivity).
  unfold getElectrictyPrices.
  rewrite (bind_returned _ _ w (addLogged InfoFunctionCall w) tt) by reflexivity.
  apply String.eqb_eq in Hsame. rewrite Hsame. cbn [negb].
  set (w0 := addLogged InfoFunctionCall w).
  rewrite (bind_returned _ _ _ _ _ (GetImPriceE_spec host (wholeWindow times) w0)).
  change (wsdlService w0) with (wsdlService w) in *. change (sent w0) with (sent w).
  rewrite Hfetch.
  rewrite (bind_returned _ _ _ _ _ (extractPricesFromGetImPriceE_spec res _)).
  cbn beta iota. unfold decodeFails at 1. rewrite Hdecode. cbn [snd].
  eexists. rewrite Hprices. split; [reflexivity|].
  split; [rewrite length_fmap; symmetry; exact (Forall2_length _ _ _ Hall)|].
  assert (Hquiet :
    logged (afterSend host (imPriceRequest (wsdlService w) (wholeWindow times))
              (addFetched (wholeWindow times) w0)) = logged w0)
    by exact (afterSend_answered host (wholeWindow times) w0 res Hfetch).
  cbn [logged appendLog]. rewrite Hquiet, Hlog.
  subst w0. cbn [logged addLogged]. rewrite <- app_assoc. reflexivity.
Qed.

Lemma X20_one_day_series_witness :
  ∃ w', getElectrictyPrices inTheAfternoon thatAfternoon blank
        = (Returned [f32 5 0; f32 6 0], w') ∧
        length [f32 5 0; f32 6 0] = 2%nat ∧
        logged w' = [InfoFunctionCall;
                     InfoItem "2024-01-01" 0 (f32 5 0) (f32 1 0);
                     InfoItem "2024-01-01" 1 (f32 6 0) (f32 1 0)].
Proof.
  apply (X20_one_day_series inTheAfternoon thatAfternoon blank
           (answer "200 OK" laterDayQuotations) laterDayQuotations
           [ {| itemDate := "2024-01-01"; itemHour := 0; itemPrice := f32 5 0;
                itemVolume := f32 1 0 |};
             {| itemDate := "2024-01-01"; itemHour := 1; itemPrice := f32 6 0;
                itemVolume := f32 1 0 |} ] eq_refl eq_refl eq_refl).
  repeat constructor.
Defined.
